(** * useProctoring: the telemetry capture hook of src/hooks/use-proctoring.ts

    A shallow embedding of the React hook [useProctoring] and of the
    callbacks it registers, followed by the properties of the capture,
    throttle, windowed-analysis and batch-flush pipeline.

    Conventions of the embedding.

    - JavaScript numbers that hold integers (timestamps, pixel sizes,
      pointer coordinates, string lengths) are [Z]; sums and differences of
      such values are exact in binary64 below 2^53.  Numbers that come out
      of [Math.sqrt], of [0.005 * _] or of a division are binary64 values
      ([PrimFloat.float]).
    - A string is a [string]; one [ascii] stands for one code unit, so
      [String.length] is the [.length] of the source.
    - Whatever a callback reads from the browser globals ([Date.now()],
      [window.innerWidth], [window.getSelection()], ...) is a field of the
      [Browser] record handed to the callback.
    - React state is the record [State].  The [const logs], [const
      isFocused], ... of a render never change: a [setX(...)] call is put
      on a queue ([Update]) that React applies, in order, to make the next
      render, once the running callback has returned ([commit]).
    - The callbacks registered by the second [useEffect] close over the
      values of the render in which that effect last ran ([listeners]).
      The effect runs again, cleanup first, only when one of its
      dependencies [logEvent, getNormalizedThreshold, isFocused] changes
      ([rerender]); [logs] and [mousePositions] are not among them.
    - The browser delivers one notification at a time ([Notification]);
      the render and the effects a callback leads to are over before the
      next one is delivered ([step]).  The turns of the interval and the
      due inactivity task are notifications like the others; the times at
      which they come are those of the [Browser] they come with. *)

From Stdlib Require Import ZArith List String Ascii Bool Lia PrimFloat Uint63.
From Stdlib Require Import Sorted.
Import ListNotations.
Local Open Scope Z_scope.
Local Open Scope list_scope.

(** ** Values and records *)

(** The values found in the [data] payloads of the source. *)
Inductive JsValue : Type :=
| JNumber (n : Z)
| JDouble (d : float)
| JString (s : string)
| JBoolean (b : bool).

(** [Record<string, any>], with the keys in the order of the literal. *)
Definition JsObject : Type := list (string * JsValue).

(** [interface EventData]; an optional field that is absent (or
    [undefined]) is [None]. *)
Record EventData : Type := mkEventData {
  type : string;
  data : JsObject;
  timestamp : Z;
  device_type : option string;
  screen_width : option Z;
  screen_height : option Z;
  window_width : option Z;
  window_height : option Z
}.

(** The element type of [mousePositions]. *)
Module Pos.
Record t : Type := mk { x : Z; y : Z; timestamp : Z }.
End Pos.

(** The object held by the [deviceInfo] state. *)
Record DeviceInfo : Type := mkDeviceInfo {
  screenWidth : Z;
  screenHeight : Z;
  windowWidth : Z;
  windowHeight : Z;
  deviceType : string
}.

(** What the callbacks read from the browser when they run. *)
Record Browser : Type := mkBrowser {
  Date_now : Z;                          (* Date.now() *)
  window_innerWidth : Z;                 (* window.innerWidth *)
  window_innerHeight : Z;                (* window.innerHeight *)
  window_screen_width : Z;               (* window.screen.width *)
  window_screen_height : Z;              (* window.screen.height *)
  navigator_userAgent : string;          (* navigator.userAgent *)
  document_hidden : bool;                (* document.hidden *)
  window_getSelection : option string    (* window.getSelection()?.toString() *)
}.

(** The five [useState] cells. *)
Record State : Type := mkState {
  logs : list EventData;
  throttledLogs : list EventData;
  mousePositions : list Pos.t;
  isFocused : bool;
  deviceInfo : option DeviceInfo
}.

(** The [setX] calls of the source, first order: an updater function
    [prev => ...] is named after what it does to [prev]. *)
Inductive Update : Type :=
| setLogs_append (e : EventData)            (* setLogs(prev => [...prev, e]) *)
| setLogs_value (l : list EventData)        (* setLogs(l) *)
| setThrottledLogs (l : list EventData)     (* setThrottledLogs(l) *)
| setMousePositions_append (p : Pos.t)      (* setMousePositions(prev => [...prev, p]) *)
| setMousePositions_filter (windowStart : Z)
    (* setMousePositions(prev => prev.filter(pos => pos.timestamp >= windowStart)) *)
| setIsFocused (b : bool)                   (* setIsFocused(b) *)
| setDeviceInfo (d : DeviceInfo).           (* setDeviceInfo(d) *)

(** The hook between two callbacks, and while one runs. *)
Record Hook : Type := mkHook {
  render : State;               (* the state of the latest render *)
  listeners : State;            (* the render the registered callbacks close over *)
  queue : list Update;          (* updates requested by the running callback *)
  lastMouseMoveTimeRef : Z;
  lastResizeTimeRef : Z;
  inactivityTimerRef : option nat;
  timeouts : list (nat * Z);    (* pending setTimeout tasks: handle, due time *)
  next_handle : nat             (* the handle the next setTimeout returns *)
}.

Definition MOUSE_THROTTLE : Z := 500.
Definition RESIZE_THROTTLE : Z := 500.

(** ** Record updates *)

Definition enqueue (u : Update) (h : Hook) : Hook :=
  mkHook (render h) (listeners h) (queue h ++ [u])
         (lastMouseMoveTimeRef h) (lastResizeTimeRef h) (inactivityTimerRef h)
         (timeouts h) (next_handle h).

Definition set_lastMouseMoveTimeRef (v : Z) (h : Hook) : Hook :=
  mkHook (render h) (listeners h) (queue h)
         v (lastResizeTimeRef h) (inactivityTimerRef h)
         (timeouts h) (next_handle h).

Definition set_lastResizeTimeRef (v : Z) (h : Hook) : Hook :=
  mkHook (render h) (listeners h) (queue h)
         (lastMouseMoveTimeRef h) v (inactivityTimerRef h)
         (timeouts h) (next_handle h).

Definition set_inactivityTimerRef (v : option nat) (h : Hook) : Hook :=
  mkHook (render h) (listeners h) (queue h)
         (lastMouseMoveTimeRef h) (lastResizeTimeRef h) v
         (timeouts h) (next_handle h).

(** ** Timers of the host *)

(** [setTimeout(callback, delay)]: the only callback the source ever
    schedules is [() => logEvent("inactivity", { duration: 3000 })], so a
    pending task is its handle and its due time. *)
Definition setTimeout (w : Browser) (delay : Z) (h : Hook) : nat * Hook :=
  (next_handle h,
   mkHook (render h) (listeners h) (queue h)
          (lastMouseMoveTimeRef h) (lastResizeTimeRef h) (inactivityTimerRef h)
          (timeouts h ++ [(next_handle h, Date_now w + delay)])
          (S (next_handle h))).

(** [clearTimeout(id)]: a handle that is not pending is ignored. *)
Definition clearTimeout (id : nat) (h : Hook) : Hook :=
  mkHook (render h) (listeners h) (queue h)
         (lastMouseMoveTimeRef h) (lastResizeTimeRef h) (inactivityTimerRef h)
         (filter (fun t => negb (Nat.eqb (fst t) id)) (timeouts h))
         (next_handle h).

(** ** logEvent (lines 34-43) *)

Definition logEvent (w : Browser) (type : string) (data : JsObject) (h : Hook) : Hook :=
  let eventData :=
    {| type := type;
       data := data;
       timestamp := Date_now w;
       device_type := None;
       screen_width := None;
       screen_height := None;
       window_width := Some (window_innerWidth w);
       window_height := Some (window_innerHeight w) |} in
  enqueue (setLogs_append eventData) h.

(** ** detectDeviceType (lines 46-52) *)

(** [toLowerCase] on the code units a user-agent string is made of: the
    letters A-Z go to a-z and every other code unit below 128 is kept.  A
    code unit from 128 on is kept too: whatever JavaScript makes of it is
    no letter of a token. *)
Definition toLowerCase_ascii (c : ascii) : ascii :=
  let n := nat_of_ascii c in
  if (Nat.leb 65 n && Nat.leb n 90)%bool then ascii_of_nat (n + 32) else c.

Fixpoint toLowerCase (s : string) : string :=
  match s with
  | EmptyString => EmptyString
  | String c s' => String (toLowerCase_ascii c) (toLowerCase s')
  end.

(** Does [tok] occur somewhere in [s]? *)
Fixpoint includes (tok s : string) : bool :=
  (String.prefix tok s
   || match s with
      | EmptyString => false
      | String _ s' => includes tok s'
      end)%bool.

(** [/t1|t2|...|tn/.test(s)] for literal alternatives: the regular
    expression is not anchored, so it matches when one of the
    alternatives occurs in [s]. *)
Definition regex_test (alternatives : list string) (s : string) : bool :=
  existsb (fun tok => includes tok s) alternatives.

Definition mobile_tokens : list string :=
  ["mobile"; "android"; "iphone"; "ipad"; "ipod"]%string.

Definition tablet_tokens : list string := ["ipad"%string].

Definition detectDeviceType (w : Browser) : string :=
  let userAgent := toLowerCase (navigator_userAgent w) in
  if regex_test mobile_tokens userAgent then
    if regex_test tablet_tokens userAgent then "tablet"%string else "mobile"%string
  else "desktop"%string.

(** ** Arithmetic on binary64 *)

(** The binary64 value of an integer. *)
Definition Number (z : Z) : float :=
  if z <? 0 then PrimFloat.opp (PrimFloat.of_uint63 (Uint63.of_Z (- z)))
  else PrimFloat.of_uint63 (Uint63.of_Z z).

(** [Math.pow(d, 2)] and [d ** 2]. *)
Definition Math_pow2 (d : float) : float := PrimFloat.mul d d.

Definition Math_sqrt (d : float) : float := PrimFloat.sqrt d.

(** The literal [0.005]: the binary64 value nearest to 5/1000. *)
Definition lit_0_005 : float := 0x1.47ae147ae147bp-8%float.

(** ** getNormalizedThreshold (lines 55-62) *)

Definition getNormalizedThreshold (c : State) : float :=
  match deviceInfo c with
  | Some d =>
      let diagonal :=
        Math_sqrt (PrimFloat.add (Math_pow2 (Number (screenWidth d)))
                                 (Math_pow2 (Number (screenHeight d)))) in
      PrimFloat.mul lit_0_005 diagonal
  | None => Number 10
  end.

(** ** The callbacks of the second effect (lines 73-184)

    Each callback takes the render [c] it closes over, the browser [w] at
    the time it runs, what it reads from its event object, and the hook it
    acts on. *)

Definition handleMouseMove (w : Browser) (clientX clientY : Z) (h : Hook) : Hook :=
  let now := Date_now w in
  if now - lastMouseMoveTimeRef h >=? MOUSE_THROTTLE then
    let h := logEvent w "mouse_move" [("x"%string, JNumber clientX); ("y"%string, JNumber clientY)] h in
    let h := enqueue (setMousePositions_append (Pos.mk clientX clientY now)) h in
    let h := set_lastMouseMoveTimeRef now h in
    (* reset inactivity timer *)
    let h := match inactivityTimerRef h with
             | Some id => clearTimeout id h
             | None => h
             end in
    let '(id, h) := setTimeout w 3000 h in
    set_inactivityTimerRef (Some id) h
  else h.

(** [s?.length || 0] *)
Definition length_or_0 (s : option string) : Z :=
  match s with
  | Some s => Z.of_nat (String.length s)
  | None => 0
  end.

Definition handleCopy (w : Browser) (h : Hook) : Hook :=
  logEvent w "clipboard"
    [("action"%string, JString "copy");
     ("selection"%string, JNumber (length_or_0 (window_getSelection w)))] h.

Definition handlePaste (w : Browser) (clipboardData : option string) (h : Hook) : Hook :=
  logEvent w "clipboard"
    [("action"%string, JString "paste");
     ("length"%string, JNumber (length_or_0 clipboardData))] h.

Definition handleCut (w : Browser) (h : Hook) : Hook :=
  logEvent w "clipboard"
    [("action"%string, JString "cut");
     ("selection"%string, JNumber (length_or_0 (window_getSelection w)))] h.

Definition handleResize (w : Browser) (h : Hook) : Hook :=
  let now := Date_now w in
  if now - lastResizeTimeRef h >=? RESIZE_THROTTLE then
    let h := logEvent w "window_resize"
      [("width"%string, JNumber (window_innerWidth w));
       ("height"%string, JNumber (window_innerHeight w));
       ("ratio"%string,
        JDouble (PrimFloat.div (Number (window_innerWidth w))
                               (Number (window_screen_width w))))] h in
    set_lastResizeTimeRef now h
  else h.

Definition handleKeyDown (w : Browser) (key : string) (h : Hook) : Hook :=
  let keyType := if Nat.eqb (String.length key) 1 then "character"%string else key in
  let h := logEvent w "key_press" [("key_type"%string, JString keyType)] h in
  let h := match inactivityTimerRef h with
           | Some id => clearTimeout id h
           | None => h
           end in
  let '(id, h) := setTimeout w 3000 h in
  set_inactivityTimerRef (Some id) h.

Definition handleVisibilityChange (w : Browser) (h : Hook) : Hook :=
  logEvent w "tab_switch"
    [("status"%string, JString (if document_hidden w then "hidden" else "visible"))] h.

Definition handleFocus (c : State) (w : Browser) (h : Hook) : Hook :=
  if negb (isFocused c) then
    let h := enqueue (setIsFocused true) h in
    logEvent w "window_state_change" [("state"%string, JString "focused")] h
  else h.

Definition handleBlur (c : State) (w : Browser) (h : Hook) : Hook :=
  if isFocused c then
    let h := enqueue (setIsFocused false) h in
    logEvent w "window_state_change" [("state"%string, JString "blurred")] h
  else h.

(** [Array.prototype.findIndex]: the index of the first element that
    satisfies [p], or -1. *)
Fixpoint findIndex {A : Type} (p : A -> bool) (l : list A) : Z :=
  match l with
  | [] => -1
  | a :: l' =>
      if p a then 0
      else let i := findIndex p l' in if i <? 0 then -1 else i + 1
  end.

(** [l[i]] for an index the source keeps in range; [d] stands for
    [undefined]. *)
Definition at_index {A : Type} (l : list A) (i : Z) (d : A) : A :=
  if i <? 0 then d else nth (Z.to_nat i) l d.

Definition undefined_pos : Pos.t := Pos.mk 0 0 0.

(** The copy [{...log, device_type: ..., ...}] of line 172. *)
Definition withDeviceInfo (di : option DeviceInfo) (log : EventData) : EventData :=
  {| type := type log;
     data := data log;
     timestamp := timestamp log;
     device_type := option_map deviceType di;
     screen_width := option_map screenWidth di;
     screen_height := option_map screenHeight di;
     window_width := option_map windowWidth di;
     window_height := option_map windowHeight di |}.

(** The distance of lines 163-165. *)
Definition distance_between (second2 second5 : Pos.t) : float :=
  Math_sqrt
    (PrimFloat.add (Math_pow2 (Number (Pos.x second5 - Pos.x second2)))
                   (Math_pow2 (Number (Pos.y second5 - Pos.y second2)))).

(** The callback of [setInterval] (lines 153-184). *)
Definition interval_callback (c : State) (w : Browser) (h : Hook) : Hook :=
  if (0 <? Z.of_nat (List.length (logs c))) then
    let windowStart := Date_now w - 5000 in
    let recentMouseData :=
      filter (fun pos => Pos.timestamp pos >=? windowStart) (mousePositions c) in
    (* analyze mouse movement (compare positions at 2s and 5s) *)
    let h :=
      if Z.of_nat (List.length recentMouseData) >=? 2 then
        let second2Index :=
          findIndex (fun pos => Pos.timestamp pos >=? windowStart + 2000) recentMouseData in
        let second2 :=
          if second2Index >=? 0 then at_index recentMouseData second2Index undefined_pos
          else at_index recentMouseData 0 undefined_pos in
        let second5 :=
          at_index recentMouseData (Z.of_nat (List.length recentMouseData) - 1) undefined_pos in
        let distance := distance_between second2 second5 in
        let normalizedThreshold := getNormalizedThreshold c in
        logEvent w "mouse_analysis"
          [("distance"%string, JDouble distance);
           ("minimalMovement"%string, JBoolean (PrimFloat.ltb distance normalizedThreshold))] h
      else h in
    let h := logEvent w "focus_state" [("isFocused"%string, JBoolean (isFocused c))] h in
    let logsWithDeviceInfo := map (withDeviceInfo (deviceInfo c)) (logs c) in
    let h := enqueue (setThrottledLogs logsWithDeviceInfo) h in
    let h := enqueue (setLogs_value []) h in
    enqueue (setMousePositions_filter windowStart) h
  else h.

(** The task scheduled by [setTimeout] at lines 85 and 129.  The host runs
    a task once, when it is pending and due. *)
Definition timeout_callback (w : Browser) (id : nat) (h : Hook) : Hook :=
  match find (fun t => Nat.eqb (fst t) id) (timeouts h) with
  | Some (_, due) =>
      if due <=? Date_now w then
        logEvent w "inactivity" [("duration"%string, JNumber 3000)] (clearTimeout id h)
      else h
  | None => h
  end.

(** The cleanup returned by the second effect (lines 196-208).  The
    listeners and the interval it removes are registered again by the
    effect that follows; what remains is the inactivity task. *)
Definition cleanup (h : Hook) : Hook :=
  match inactivityTimerRef h with
  | Some id => clearTimeout id h
  | None => h
  end.

(** ** The hook as a transition system *)

(** What the browser can deliver to the mounted hook: the nine events the
    second effect listens to, each with what the callback reads from its
    event object, a due inactivity task, and a turn of the interval. *)
Inductive Notification : Type :=
| mousemove (clientX clientY : Z)
| keydown (key : string)
| visibilitychange
| copy
| paste (clipboardData : option string)   (* event.clipboardData?.getData('text') *)
| cut
| resize
| focus
| blur
| timeout (id : nat)
| interval.

(** The callback registered for a notification (lines 186-194, 85, 129
    and 153), closing over the render [c]. *)
Definition callback (n : Notification) (c : State) (w : Browser) (h : Hook) : Hook :=
  match n with
  | mousemove clientX clientY => handleMouseMove w clientX clientY h
  | keydown key => handleKeyDown w key h
  | visibilitychange => handleVisibilityChange w h
  | copy => handleCopy w h
  | paste clipboardData => handlePaste w clipboardData h
  | cut => handleCut w h
  | resize => handleResize w h
  | focus => handleFocus c w h
  | blur => handleBlur c w h
  | timeout id => timeout_callback w id h
  | interval => interval_callback c w h
  end.

(** One queued update applied to the state it finds. *)
Definition apply_update (s : State) (u : Update) : State :=
  match u with
  | setLogs_append e =>
      mkState (logs s ++ [e]) (throttledLogs s) (mousePositions s) (isFocused s) (deviceInfo s)
  | setLogs_value l =>
      mkState l (throttledLogs s) (mousePositions s) (isFocused s) (deviceInfo s)
  | setThrottledLogs l =>
      mkState (logs s) l (mousePositions s) (isFocused s) (deviceInfo s)
  | setMousePositions_append p =>
      mkState (logs s) (throttledLogs s) (mousePositions s ++ [p]) (isFocused s) (deviceInfo s)
  | setMousePositions_filter windowStart =>
      mkState (logs s) (throttledLogs s)
              (filter (fun pos => Pos.timestamp pos >=? windowStart) (mousePositions s))
              (isFocused s) (deviceInfo s)
  | setIsFocused b =>
      mkState (logs s) (throttledLogs s) (mousePositions s) b (deviceInfo s)
  | setDeviceInfo d =>
      mkState (logs s) (throttledLogs s) (mousePositions s) (isFocused s) (Some d)
  end.

(** The state of the next render: the queue applied in order. *)
Definition commit (s : State) (q : list Update) : State :=
  fold_left apply_update q s.

Definition is_setDeviceInfo (u : Update) : bool :=
  match u with setDeviceInfo _ => true | _ => false end.

(** Does the dependency array [[logEvent, getNormalizedThreshold,
    isFocused]] of the second effect differ between the last render and
    the next one?  [logEvent] never changes ([useCallback] with no
    dependency); [getNormalizedThreshold] depends on [deviceInfo], which
    becomes a fresh object at every [setDeviceInfo]. *)
Definition deps_changed (h : Hook) (next : State) : bool :=
  (existsb is_setDeviceInfo (queue h)
   || negb (Bool.eqb (isFocused next) (isFocused (render h))))%bool.

(** After a callback has returned: the queued updates give the next
    render; when a dependency of the second effect changed, its cleanup
    runs and the effect registers callbacks that close over the new
    render, otherwise the registered callbacks stay. *)
Definition rerender (h : Hook) : Hook :=
  let next := commit (render h) (queue h) in
  if deps_changed h next then
    let h := cleanup h in
    mkHook next next []
           (lastMouseMoveTimeRef h) (lastResizeTimeRef h) (inactivityTimerRef h)
           (timeouts h) (next_handle h)
  else
    mkHook next (listeners h) []
           (lastMouseMoveTimeRef h) (lastResizeTimeRef h) (inactivityTimerRef h)
           (timeouts h) (next_handle h).

(** One notification: its callback runs to completion, then React
    renders. *)
Definition step (h : Hook) (e : Browser * Notification) : Hook :=
  rerender (callback (snd e) (listeners h) (fst e) h).

Definition run (h : Hook) (es : list (Browser * Notification)) : Hook :=
  fold_left step es h.

(** The first effect (lines 64-71). *)
Definition deviceInfo_effect (w : Browser) (h : Hook) : Hook :=
  let screenWidth := window_screen_width w in
  let screenHeight := window_screen_height w in
  let windowWidth := window_innerWidth w in
  let windowHeight := window_innerHeight w in
  let deviceType := detectDeviceType w in
  enqueue (setDeviceInfo (mkDeviceInfo screenWidth screenHeight windowWidth windowHeight deviceType)) h.

(** The state of the first render (lines 17-30). *)
Definition initial : State := mkState [] [] [] true None.

(** Mounting: the first render, after which both effects run (the second
    one registers callbacks closing over [initial]), and the render that
    the first effect's [setDeviceInfo] asks for. *)
Definition mount (w : Browser) : Hook :=
  rerender (deviceInfo_effect w (mkHook initial initial [] 0 0 None [] 1)).

(** ** What a callback asks for *)

(** The records handed to [logEvent] while a queue was filled. *)
Definition emitted (q : list Update) : list EventData :=
  flat_map (fun u => match u with setLogs_append e => [e] | _ => [] end) q.

(** The batches handed to [setThrottledLogs], that is to the consumer of
    the hook's return value. *)
Definition published (q : list Update) : list (list EventData) :=
  flat_map (fun u => match u with setThrottledLogs l => [l] | _ => [] end) q.

(** The queue a notification produces on a hook at rest. *)
Definition requests (h : Hook) (e : Browser * Notification) : list Update :=
  queue (callback (snd e) (listeners h) (fst e) h).

Definition has_type (t : string) (e : EventData) : bool := String.eqb (type e) t.

Definition count_type (t : string) (l : list EventData) : nat :=
  List.length (filter (has_type t) l).

(** * Vocabulary of the properties *)

(** ** Records by name *)

(** The record [logEvent] makes in the browser [w]. *)
Definition logged (w : Browser) (type : string) (data : JsObject) : EventData :=
  mkEventData type data (Date_now w) None None None
              (Some (window_innerWidth w)) (Some (window_innerHeight w)).

(** The type [handleKeyDown] logs for a key. *)
Definition key_type (key : string) : string :=
  if Nat.eqb (String.length key) 1 then "character"%string else key.

(** The record [handleKeyDown] logs for a key whose type is [keyType]. *)
Definition key_press_record (w : Browser) (keyType : string) : EventData :=
  mkEventData "key_press" [("key_type"%string, JString keyType)] (Date_now w)
              None None None
              (Some (window_innerWidth w)) (Some (window_innerHeight w)).

(** The record the clipboard handlers log: the action and, under the key
    [field], a number. *)
Definition clipboard_record (w : Browser) (action field : string) (n : Z) : EventData :=
  mkEventData "clipboard"
              [("action"%string, JString action); (field, JNumber n)]
              (Date_now w) None None None
              (Some (window_innerWidth w)) (Some (window_innerHeight w)).

Definition mouse_move_record (w : Browser) (clientX clientY : Z) : EventData :=
  logged w "mouse_move" [("x"%string, JNumber clientX); ("y"%string, JNumber clientY)].

Definition window_resize_record (w : Browser) : EventData :=
  logged w "window_resize"
    [("width"%string, JNumber (window_innerWidth w));
     ("height"%string, JNumber (window_innerHeight w));
     ("ratio"%string,
      JDouble (PrimFloat.div (Number (window_innerWidth w))
                             (Number (window_screen_width w))))].

Definition window_state_change_record (w : Browser) (focused : bool) : EventData :=
  logged w "window_state_change"
    [("state"%string, JString (if focused then "focused" else "blurred"))].

(** The two records a turn of the interval can hand to [logEvent]. *)
Definition mouse_analysis_record (w : Browser) (distance threshold : float) : EventData :=
  mkEventData "mouse_analysis"
              [("distance"%string, JDouble distance);
               ("minimalMovement"%string, JBoolean (PrimFloat.ltb distance threshold))]
              (Date_now w) None None None
              (Some (window_innerWidth w)) (Some (window_innerHeight w)).

Definition focus_state_record (w : Browser) (focused : bool) : EventData :=
  mkEventData "focus_state" [("isFocused"%string, JBoolean focused)]
              (Date_now w) None None None
              (Some (window_innerWidth w)) (Some (window_innerHeight w)).

(** The record made of [log] and of the device information read when the
    hook was mounted in the browser [w0]: [type], [data] and [timestamp]
    come from [log], everything else from [w0]. *)
Definition flushed (w0 : Browser) (log : EventData) : EventData :=
  mkEventData (type log) (data log) (timestamp log)
              (Some (detectDeviceType w0))
              (Some (window_screen_width w0)) (Some (window_screen_height w0))
              (Some (window_innerWidth w0)) (Some (window_innerHeight w0)).

(** ** Callbacks in closed form *)

(** The pending tasks once the task whose handle [ref] holds, if any, is
    cleared: [if (ref) clearTimeout(ref)]. *)
Definition cleared (ref : option nat) (ts : list (nat * Z)) : list (nat * Z) :=
  match ref with
  | Some id => filter (fun t => negb (Nat.eqb (fst t) id)) ts
  | None => ts
  end.

(** What the analysis of lines 159-168 asks for: one [logEvent] when at
    least two captured samples lie in the trailing window, nothing
    otherwise. *)
Definition analysis_requests (c : State) (w : Browser) : list Update :=
  let windowStart := Date_now w - 5000 in
  let recentMouseData :=
    filter (fun pos => Pos.timestamp pos >=? windowStart) (mousePositions c) in
  if Z.of_nat (List.length recentMouseData) >=? 2 then
    let second2Index :=
      findIndex (fun pos => Pos.timestamp pos >=? windowStart + 2000) recentMouseData in
    let second2 :=
      if second2Index >=? 0 then at_index recentMouseData second2Index undefined_pos
      else at_index recentMouseData 0 undefined_pos in
    let second5 :=
      at_index recentMouseData (Z.of_nat (List.length recentMouseData) - 1) undefined_pos in
    [setLogs_append
       (mouse_analysis_record w (distance_between second2 second5)
                              (getNormalizedThreshold c))]
  else [].

(** Everything a turn of the interval asks for when the captured log is
    not empty (lines 155-182), in the order of the source. *)
Definition flush_requests (c : State) (w : Browser) : list Update :=
  analysis_requests c w
  ++ [setLogs_append (focus_state_record w (isFocused c));
      setThrottledLogs (map (withDeviceInfo (deviceInfo c)) (logs c));
      setLogs_value [];
      setMousePositions_filter (Date_now w - 5000)].

Definition is_setIsFocused (u : Update) : bool :=
  match u with setIsFocused _ => true | _ => false end.

(** The updates that neither flip the focus flag, nor publish a batch, nor
    replace the device information. *)
Definition quiet (u : Update) : bool :=
  match u with
  | setIsFocused _ | setThrottledLogs _ | setDeviceInfo _ => false
  | _ => true
  end.

(** Unfolds a callback down to the constructors of [Hook]. *)
Ltac unfold_callback :=
  unfold step, requests; cbn [fst snd callback];
  unfold handleMouseMove, handleKeyDown, handleVisibilityChange,
    handleCopy, handlePaste, handleCut, handleResize,
    handleFocus, handleBlur, timeout_callback,
    logEvent, setTimeout, clearTimeout, enqueue,
    set_lastMouseMoveTimeRef, set_lastResizeTimeRef, set_inactivityTimerRef;
  cbn [fst snd render listeners queue lastMouseMoveTimeRef lastResizeTimeRef
       inactivityTimerRef timeouts next_handle].

(** ** Sessions *)

(** The hooks a session can be in: mounted, then any notifications. *)
Inductive reachable : Hook -> Prop :=
| reachable_mount (w : Browser) : reachable (mount w)
| reachable_step (h : Hook) (e : Browser * Notification) :
    reachable h -> reachable (step h e).

(** The registered callbacks are up to date on the two values the second
    effect depends on, and no update is pending between notifications. *)
Definition registered (h : Hook) : Prop :=
  queue h = []
  /\ isFocused (listeners h) = isFocused (render h)
  /\ deviceInfo (listeners h) = deviceInfo (render h).

(** At most one inactivity task is pending, and [inactivityTimerRef]
    holds its handle. *)
Definition single_task (h : Hook) : Prop :=
  timeouts h = []
  \/ exists id due, timeouts h = [(id, due)] /\ inactivityTimerRef h = Some id.

(** Pointer moves at the given times and places; resizes at the given
    times. *)
Definition moves (burst : list (Browser * (Z * Z))) : list (Browser * Notification) :=
  map (fun e => (fst e, mousemove (fst (snd e)) (snd (snd e)))) burst.

Definition resizes (burst : list Browser) : list (Browser * Notification) :=
  map (fun w => (w, resize)) burst.

(** The notification that the window got ([true]) or lost ([false]) the
    focus. *)
Definition focus_notification (focused : bool) : Notification :=
  if focused then focus else blur.

Definition focus_notifications (ns : list (Browser * bool)) : list (Browser * Notification) :=
  map (fun e => (fst e, focus_notification (snd e))) ns.

(** The browser [w] with [s] as the text of the current selection. *)
Definition with_selection (w : Browser) (s : option string) : Browser :=
  mkBrowser (Date_now w) (window_innerWidth w) (window_innerHeight w)
            (window_screen_width w) (window_screen_height w)
            (navigator_userAgent w) (document_hidden w) s.

(** ** The words of the specification *)

(** [tok] occurs in [s]: [s] is some text, then [tok], then some text. *)
Definition occurs_in (tok s : string) : Prop :=
  exists pre suf : string, s = (pre ++ tok ++ suf)%string.

(** The records an edge-triggered flag leaves: one for each notification
    whose state differs from the state before it. *)
Fixpoint state_changes (current : bool) (ns : list (Browser * bool)) : list EventData :=
  match ns with
  | [] => []
  | n :: ns' =>
      if Bool.eqb (snd n) current then state_changes current ns'
      else window_state_change_record (fst n) (snd n) :: state_changes (snd n) ns'
  end.

(** The two reference samples of the analysis, for a non-empty window:
    S2 is the first sample with timestamp >= [bound] or, when there is
    none, the earliest sample; S5 is the latest sample. *)
Definition is_second2 (retained : list Pos.t) (bound : Z) (S2 : Pos.t) : Prop :=
  (exists pre suf,
      retained = pre ++ S2 :: suf
      /\ Forall (fun pos => Pos.timestamp pos < bound) pre
      /\ bound <= Pos.timestamp S2)
  \/ (Forall (fun pos => Pos.timestamp pos < bound) retained
      /\ exists rest, retained = S2 :: rest).

Definition is_second5 (retained : list Pos.t) (S5 : Pos.t) : Prop :=
  exists front, retained = front ++ [S5].

(** The threshold of the specification: 0.005 times the screen diagonal,
    or 10 without device information. *)
Definition threshold (d : option DeviceInfo) : float :=
  match d with
  | Some d =>
      PrimFloat.mul lit_0_005
        (PrimFloat.sqrt
           (PrimFloat.add
              (PrimFloat.mul (Number (screenWidth d)) (Number (screenWidth d)))
              (PrimFloat.mul (Number (screenHeight d)) (Number (screenHeight d)))))
  | None => Number 10
  end.

(** The Euclidean distance between two samples, in binary64. *)
Definition euclidean (a b : Pos.t) : float :=
  PrimFloat.sqrt
    (PrimFloat.add
       (PrimFloat.mul (Number (Pos.x b - Pos.x a)) (Number (Pos.x b - Pos.x a)))
       (PrimFloat.mul (Number (Pos.y b - Pos.y a)) (Number (Pos.y b - Pos.y a)))).

(** ** Sample sessions *)

Definition ua_ipad : string :=
  "Mozilla/5.0 (iPad; CPU OS 16_6 like Mac OS X) AppleWebKit/605.1.15 Mobile/15E148".

Definition ua_android : string :=
  "Mozilla/5.0 (Linux; Android 13; Pixel 7) AppleWebKit/537.36 Chrome/116.0.0.0 Mobile Safari/537.36".

Definition ua_linux : string :=
  "Mozilla/5.0 (X11; Linux x86_64) AppleWebKit/537.36 Chrome/116.0.0.0 Safari/537.36".

(** [Date.now()] when the sample sessions start. *)
Definition session_start : Z := 1700000000000.

(** A browser with a 1920x1080 screen and a 1280x720 viewport, [t]
    milliseconds after the session started. *)
Definition browser_at (ua : string) (t : Z) : Browser :=
  mkBrowser (session_start + t) 1280 720 1920 1080 ua false None.

(** The same browser once its window is 800x600. *)
Definition resized_at (ua : string) (t : Z) : Browser :=
  mkBrowser (session_start + t) 800 600 1920 1080 ua false None.

(** ** Further vocabulary *)

(** The record [handleVisibilityChange] logs in the browser [w]. *)
Definition tab_switch_record (w : Browser) : EventData :=
  logged w "tab_switch"
    [("status"%string, JString (if document_hidden w then "hidden" else "visible"))].

Definition visibility_changes (ws : list Browser) : list (Browser * Notification) :=
  map (fun w => (w, visibilitychange)) ws.

(** The browser of the sample sessions with its tab hidden or shown. *)
Definition tab_at (ua : string) (t : Z) (hidden : bool) : Browser :=
  mkBrowser (session_start + t) 1280 720 1920 1080 ua hidden None.

(** The browser [w] with [ua] as its user agent. *)
Definition with_userAgent (w : Browser) (ua : string) : Browser :=
  mkBrowser (Date_now w) (window_innerWidth w) (window_innerHeight w)
            (window_screen_width w) (window_screen_height w)
            ua (document_hidden w) (window_getSelection w).

(** Key presses at the given times. *)
Definition key_presses (ks : list (Browser * string)) : list (Browser * Notification) :=
  map (fun k => (fst k, keydown (snd k))) ks.

(** Consecutive samples are at least [MOUSE_THROTTLE] apart, in the order
    of the buffer. *)
Definition spaced (l : list Pos.t) : Prop :=
  StronglySorted (fun a b => Pos.timestamp a + MOUSE_THROTTLE <= Pos.timestamp b) l.

(** The notifications whose callbacks neither schedule nor run the
    inactivity task and never flip the focus flag. *)
Definition passive (n : Notification) : bool :=
  match n with
  | visibilitychange | copy | paste _ | cut | resize | interval => true
  | _ => false
  end.

Definition is_focus_or_blur (n : Notification) : bool :=
  match n with focus | blur => true | _ => false end.

(** The updates by which a callback appends to the log or to the
    buffer. *)
Definition appends (u : Update) : bool :=
  match u with
  | setLogs_append _ | setMousePositions_append _ => true
  | _ => false
  end.

(** The records emitted along a session, in order. *)
Fixpoint session_emitted (h : Hook) (es : list (Browser * Notification)) : list EventData :=
  match es with
  | [] => []
  | e :: es' => emitted (requests h e) ++ session_emitted (step h e) es'
  end.

(** The device fields of a record are those read in the browser [w0]. *)
Definition carries_info (w0 : Browser) (r : EventData) : Prop :=
  device_type r = Some (detectDeviceType w0)
  /\ screen_width r = Some (window_screen_width w0)
  /\ screen_height r = Some (window_screen_height w0)
  /\ window_width r = Some (window_innerWidth w0)
  /\ window_height r = Some (window_innerHeight w0).

(** Does the notification flip the focus flag, so that the second effect
    runs again and sets a new interval? *)
Definition flips (h : Hook) (e : Browser * Notification) : bool :=
  negb (Bool.eqb (isFocused (render (step h e))) (isFocused (render h))).

(** A session as the browser delivers it: the clock never goes back, and
    a turn of the interval comes 5000 ms or more after the interval was
    set, that is after the callbacks were last registered
    ([setInterval(..., 5000)] at line 153, in the effect that runs at mount
    and again at every focus flip).  [registered_at] is the time of that
    registration and [now] the time of the last notification. *)
Fixpoint ordinary (h : Hook) (registered_at now : Z)
         (es : list (Browser * Notification)) : Prop :=
  match es with
  | [] => True
  | e :: es' =>
      now <= Date_now (fst e)
      /\ (snd e = interval -> registered_at + 5000 <= Date_now (fst e))
      /\ ordinary (step h e)
                  (if flips h e then Date_now (fst e) else registered_at)
                  (Date_now (fst e)) es'
  end.

(** What holds between the notifications of such a session: the samples
    of the buffer are 500 ms apart and not later than [now], those the
    callbacks captured are 500 ms apart and not later than the
    registration. *)
Definition captured_before (h : Hook) (registered_at now : Z) : Prop :=
  queue h = []
  /\ registered_at <= now
  /\ spaced (mousePositions (render h))
  /\ Forall (fun p => Pos.timestamp p <= lastMouseMoveTimeRef h)
            (mousePositions (render h))
  /\ Forall (fun p => Pos.timestamp p <= now) (mousePositions (render h))
  /\ spaced (mousePositions (listeners h))
  /\ Forall (fun p => Pos.timestamp p <= registered_at)
            (mousePositions (listeners h)).

(** * Properties *)

(** ** Device classification *)

Lemma prefix_iff (tok s : string) :
  String.prefix tok s = true <-> exists suf, s = (tok ++ suf)%string.
Proof.
  revert tok. induction s as [| b s IH]; intros [| a tok]; simpl.
  - split; [intros _; exists EmptyString; reflexivity | reflexivity].
  - split; [discriminate | intros [suf H]; discriminate].
  - split; [intros _; exists (String b s); reflexivity | reflexivity].
  - destruct (ascii_dec a b) as [-> | Hab].
    + rewrite IH. split; intros [suf H]; exists suf.
      * now rewrite H.
      * now injection H.
    + split; [discriminate |].
      intros [suf H]. injection H as Hb _. congruence.
Qed.

Lemma includes_iff (tok s : string) :
  includes tok s = true <-> occurs_in tok s.
Proof.
  induction s as [| b s IH].
  - cbn [includes]. rewrite orb_false_r, prefix_iff. split.
    + intros [suf H]. exists EmptyString, suf. exact H.
    + intros [[| a pre] [suf H]]; [exists suf; exact H | discriminate].
  - cbn [includes]. rewrite orb_true_iff, IH, prefix_iff. split.
    + intros [[suf H] | [pre [suf H]]].
      * exists EmptyString, suf. exact H.
      * exists (String b pre), suf. simpl. now rewrite H.
    + intros [[| a pre] [suf H]].
      * left. exists suf. exact H.
      * right. exists pre, suf. simpl in H. now injection H.
Qed.

Lemma includes_false_iff (tok s : string) :
  includes tok s = false <-> ~ occurs_in tok s.
Proof.
  rewrite <- includes_iff. destruct (includes tok s); split; congruence.
Qed.

Lemma regex_test_iff (alternatives : list string) (s : string) :
  regex_test alternatives s = true <->
  exists tok, In tok alternatives /\ occurs_in tok s.
Proof.
  unfold regex_test. rewrite existsb_exists.
  split; intros [tok [Hin H]]; exists tok; split; trivial;
    now apply includes_iff.
Qed.

(** C8: the device type is decided by which tokens occur in the
    lower-cased user agent: "tablet" when a mobile token occurs and the
    tablet token "ipad" occurs too, "mobile" when a mobile token occurs and
    "ipad" does not, "desktop" when no token occurs. *)
Theorem detectDeviceType_by_tokens (w : Browser) :
  let userAgent := toLowerCase (navigator_userAgent w) in
  ((exists tok, In tok mobile_tokens /\ occurs_in tok userAgent) ->
   (exists tok, In tok tablet_tokens /\ occurs_in tok userAgent) ->
   detectDeviceType w = "tablet"%string)
  /\ ((exists tok, In tok mobile_tokens /\ occurs_in tok userAgent) ->
      (forall tok, In tok tablet_tokens -> ~ occurs_in tok userAgent) ->
      detectDeviceType w = "mobile"%string)
  /\ ((forall tok, In tok mobile_tokens -> ~ occurs_in tok userAgent) ->
      detectDeviceType w = "desktop"%string).
Proof.
  intros userAgent. unfold detectDeviceType. fold userAgent.
  repeat split.
  - intros Hm Ht.
    apply regex_test_iff in Hm, Ht. now rewrite Hm, Ht.
  - intros Hm Ht.
    apply regex_test_iff in Hm. rewrite Hm.
    destruct (regex_test tablet_tokens userAgent) eqn:E; [| reflexivity].
    apply regex_test_iff in E. destruct E as [tok [Hin Hocc]].
    exfalso. exact (Ht tok Hin Hocc).
  - intros Hnone.
    destruct (regex_test mobile_tokens userAgent) eqn:E; [| reflexivity].
    apply regex_test_iff in E. destruct E as [tok [Hin Hocc]].
    exfalso. exact (Hnone tok Hin Hocc).
Qed.

Lemma detectDeviceType_by_tokens_witness :
  detectDeviceType (browser_at ua_ipad 0) = "tablet"%string
  /\ detectDeviceType (browser_at ua_android 0) = "mobile"%string
  /\ detectDeviceType (browser_at ua_linux 0) = "desktop"%string.
Proof.
  split; [| split].
  - apply (proj1 (detectDeviceType_by_tokens (browser_at ua_ipad 0))).
    + exists "ipad"%string. split; [simpl; tauto |].
      apply includes_iff. vm_compute. reflexivity.
    + exists "ipad"%string. split; [simpl; tauto |].
      apply includes_iff. vm_compute. reflexivity.
  - apply (proj1 (proj2 (detectDeviceType_by_tokens (browser_at ua_android 0)))).
    + exists "android"%string. split; [simpl; tauto |].
      apply includes_iff. vm_compute. reflexivity.
    + intros tok [<- | []]. apply includes_false_iff. vm_compute. reflexivity.
  - apply (proj2 (proj2 (detectDeviceType_by_tokens (browser_at ua_linux 0)))).
    intros tok Hin. apply includes_false_iff.
    simpl in Hin.
    destruct Hin as [<- | [<- | [<- | [<- | [<- | []]]]]]; vm_compute; reflexivity.
Defined.

(** ** Queues and commits *)

Lemma emitted_app (q1 q2 : list Update) :
  emitted (q1 ++ q2) = emitted q1 ++ emitted q2.
Proof. unfold emitted. apply flat_map_app. Qed.

Lemma published_app (q1 q2 : list Update) :
  published (q1 ++ q2) = published q1 ++ published q2.
Proof. unfold published. apply flat_map_app. Qed.

Lemma commit_app (s : State) (q1 q2 : list Update) :
  commit s (q1 ++ q2) = commit (commit s q1) q2.
Proof. unfold commit. apply fold_left_app. Qed.

Lemma commit_deviceInfo (q : list Update) (s : State) :
  existsb is_setDeviceInfo q = false -> deviceInfo (commit s q) = deviceInfo s.
Proof.
  revert s. induction q as [| u q IH]; intros s H; [reflexivity |].
  simpl in H. apply orb_false_iff in H. destruct H as [Hu Hq].
  unfold commit in *. simpl. rewrite (IH _ Hq).
  destruct u; simpl in *; congruence.
Qed.

Lemma commit_isFocused (q : list Update) (s : State) :
  existsb is_setIsFocused q = false -> isFocused (commit s q) = isFocused s.
Proof.
  revert s. induction q as [| u q IH]; intros s H; [reflexivity |].
  simpl in H. apply orb_false_iff in H. destruct H as [Hu Hq].
  unfold commit in *. simpl. rewrite (IH _ Hq).
  destruct u; simpl in *; congruence.
Qed.

Lemma nonempty_length_pos {A : Type} (l : list A) :
  l <> [] -> (0 <? Z.of_nat (List.length l)) = true.
Proof.
  destruct l; [congruence | intros _; reflexivity].
Qed.

(** ** The callbacks in closed form *)

Lemma handleKeyDown_eq (w : Browser) (key : string) (h : Hook) :
  handleKeyDown w key h
  = mkHook (render h) (listeners h)
           (queue h ++ [setLogs_append (key_press_record w (key_type key))])
           (lastMouseMoveTimeRef h) (lastResizeTimeRef h)
           (Some (next_handle h))
           (cleared (inactivityTimerRef h) (timeouts h)
            ++ [(next_handle h, Date_now w + 3000)])
           (S (next_handle h)).
Proof.
  destruct h as [r l q a b [id |] ts n]; reflexivity.
Qed.

Lemma handleMouseMove_eq (w : Browser) (clientX clientY : Z) (h : Hook) :
  handleMouseMove w clientX clientY h
  = if Date_now w - lastMouseMoveTimeRef h >=? MOUSE_THROTTLE then
      mkHook (render h) (listeners h)
             (queue h ++ [setLogs_append (mouse_move_record w clientX clientY);
                          setMousePositions_append
                            (Pos.mk clientX clientY (Date_now w))])
             (Date_now w) (lastResizeTimeRef h)
             (Some (next_handle h))
             (cleared (inactivityTimerRef h) (timeouts h)
              ++ [(next_handle h, Date_now w + 3000)])
             (S (next_handle h))
    else h.
Proof.
  unfold handleMouseMove.
  destruct (Date_now w - lastMouseMoveTimeRef h >=? MOUSE_THROTTLE);
    [| reflexivity].
  destruct h as [r l q a b [id |] ts n];
    cbv beta iota zeta delta
      [logEvent enqueue setTimeout clearTimeout cleared
       set_lastMouseMoveTimeRef set_inactivityTimerRef
       render listeners queue lastMouseMoveTimeRef
       lastResizeTimeRef inactivityTimerRef timeouts next_handle];
    rewrite <- app_assoc; reflexivity.
Qed.

(** With an empty captured log the interval callback does nothing. *)
Lemma interval_callback_idle (c : State) (w : Browser) (h : Hook) :
  logs c = [] -> interval_callback c w h = h.
Proof. intros H. unfold interval_callback. now rewrite H. Qed.

(** With a captured log that is not empty it adds [flush_requests] to the
    queue and touches nothing else. *)
Lemma interval_callback_eq (c : State) (w : Browser) (h : Hook) :
  logs c <> [] ->
  interval_callback c w h
  = mkHook (render h) (listeners h) (queue h ++ flush_requests c w)
           (lastMouseMoveTimeRef h) (lastResizeTimeRef h) (inactivityTimerRef h)
           (timeouts h) (next_handle h).
Proof.
  intros Hne. unfold interval_callback, flush_requests, analysis_requests.
  rewrite (nonempty_length_pos _ Hne).
  destruct h as [r l q a b t ts n].
  destruct (Z.of_nat (List.length _) >=? 2);
    cbv beta iota zeta delta
      [logEvent enqueue render listeners queue lastMouseMoveTimeRef
       lastResizeTimeRef inactivityTimerRef timeouts next_handle];
    rewrite <- ?app_assoc; reflexivity.
Qed.

(** No request of a flush touches a dependency of the second effect. *)
Lemma flush_requests_deps (c : State) (w : Browser) :
  existsb is_setDeviceInfo (flush_requests c w) = false
  /\ existsb is_setIsFocused (flush_requests c w) = false.
Proof.
  unfold flush_requests, analysis_requests.
  destruct (Z.of_nat (List.length _) >=? 2); split; reflexivity.
Qed.

(** The one batch a flush publishes. *)
Lemma flush_requests_published (c : State) (w : Browser) :
  published (flush_requests c w) = [map (withDeviceInfo (deviceInfo c)) (logs c)].
Proof.
  unfold flush_requests, analysis_requests.
  destruct (Z.of_nat (List.length _) >=? 2); reflexivity.
Qed.

(** What the requests of a flush do to the state they find. *)
Lemma flush_requests_commit (s c : State) (w : Browser) :
  commit s (flush_requests c w)
  = mkState [] (map (withDeviceInfo (deviceInfo c)) (logs c))
            (filter (fun pos => Pos.timestamp pos >=? Date_now w - 5000)
                    (mousePositions s))
            (isFocused s) (deviceInfo s).
Proof.
  unfold flush_requests, analysis_requests.
  destruct (Z.of_nat (List.length _) >=? 2); reflexivity.
Qed.

Lemma interval_callback_published (c : State) (w : Browser) (h : Hook) :
  queue h = [] -> logs c <> [] ->
  published (queue (interval_callback c w h))
  = [map (withDeviceInfo (deviceInfo c)) (logs c)].
Proof.
  intros Hq Hne. rewrite (interval_callback_eq _ _ _ Hne). cbn [queue].
  rewrite Hq. apply flush_requests_published.
Qed.

Lemma interval_callback_commit (c : State) (w : Browser) (h : Hook) :
  queue h = [] -> logs c <> [] ->
  commit (render h) (queue (interval_callback c w h))
  = mkState [] (map (withDeviceInfo (deviceInfo c)) (logs c))
            (filter (fun pos => Pos.timestamp pos >=? Date_now w - 5000)
                    (mousePositions (render h)))
            (isFocused (render h)) (deviceInfo (render h)).
Proof.
  intros Hq Hne. rewrite (interval_callback_eq _ _ _ Hne). cbn [queue].
  rewrite Hq. apply flush_requests_commit.
Qed.

(** A callback only adds to the queue, and never a [setDeviceInfo]. *)
Lemma callback_frame (n : Notification) (c : State) (w : Browser) (h : Hook) :
  render (callback n c w h) = render h
  /\ listeners (callback n c w h) = listeners h
  /\ exists q, queue (callback n c w h) = queue h ++ q
               /\ existsb is_setDeviceInfo q = false.
Proof.
  assert (Hnil : exists q, queue h = queue h ++ q
                           /\ existsb is_setDeviceInfo q = false)
    by (exists []; now rewrite app_nil_r).
  destruct n; cbn [callback];
    rewrite ?handleMouseMove_eq, ?handleKeyDown_eq.
  1-10: unfold_callback;
    repeat match goal with
           | |- context [if ?b then _ else _] => destruct b
           | |- context [match ?o with Some _ => _ | None => _ end] => destruct o
           | |- context [let '(_, _) := ?p in _] => destruct p
           end;
    cbn [render listeners queue];
    (split; [reflexivity | split; [reflexivity |]]);
    try exact Hnil;
    rewrite <- ?app_assoc; eexists; (split; [reflexivity | reflexivity]).
  destruct (logs c) as [| e l] eqn:E.
  - rewrite (interval_callback_idle _ _ _ E). now repeat split.
  - rewrite interval_callback_eq by (rewrite E; discriminate).
    cbn [render listeners queue]. repeat split.
    exists (flush_requests c w). split; [reflexivity | apply flush_requests_deps].
Qed.

(** ** Rendering after a callback *)

Lemma rerender_refs (h : Hook) :
  queue (rerender h) = []
  /\ lastMouseMoveTimeRef (rerender h) = lastMouseMoveTimeRef h
  /\ lastResizeTimeRef (rerender h) = lastResizeTimeRef h
  /\ inactivityTimerRef (rerender h) = inactivityTimerRef h.
Proof.
  unfold rerender, cleanup.
  destruct (deps_changed _ _); [destruct (inactivityTimerRef h) eqn:E |];
    cbn; rewrite ?E; repeat split.
Qed.

(** A callback that asks for nothing and touches nothing leaves the hook
    as it was. *)
Lemma rerender_idle (h : Hook) : queue h = [] -> rerender h = h.
Proof.
  intros Hq. unfold rerender, deps_changed. rewrite Hq. cbn.
  rewrite eqb_reflx. cbn. destruct h; cbn in *. now subst.
Qed.

Lemma step_queue (h : Hook) (e : Browser * Notification) : queue (step h e) = [].
Proof. unfold step. apply rerender_refs. Qed.

(** The next render is the last one with the requests of the callback
    applied. *)
Lemma step_render (h : Hook) (e : Browser * Notification) :
  render (step h e) = commit (render h) (queue (callback (snd e) (listeners h) (fst e) h)).
Proof.
  unfold step, rerender.
  destruct (callback_frame (snd e) (listeners h) (fst e) h) as (Hr & _).
  destruct (deps_changed _ _); cbn [render]; now rewrite Hr.
Qed.

(** A turn of the interval changes no dependency of the second effect. *)
Lemma step_interval (h : Hook) (w : Browser) :
  queue h = [] ->
  step h (w, interval)
  = mkHook (commit (render h) (requests h (w, interval))) (listeners h) []
           (lastMouseMoveTimeRef h) (lastResizeTimeRef h) (inactivityTimerRef h)
           (timeouts h) (next_handle h).
Proof.
  intros Hq. unfold step, requests. cbn [fst snd callback].
  destruct (logs (listeners h)) as [| e l] eqn:El.
  - rewrite (interval_callback_idle _ _ _ El).
    unfold rerender, deps_changed. rewrite Hq. cbn.
    now rewrite eqb_reflx.
  - assert (Hne : logs (listeners h) <> []) by (rewrite El; discriminate).
    rewrite (interval_callback_eq _ _ _ Hne).
    unfold rerender, deps_changed. cbn [queue render]. rewrite Hq. cbn [app].
    destruct (flush_requests_deps (listeners h) w) as [-> Hf].
    rewrite (commit_isFocused _ _ Hf), eqb_reflx. reflexivity.
Qed.

(** ** Reachable hooks *)

Lemma rerender_registered (h : Hook) :
  isFocused (listeners h) = isFocused (render h) ->
  deviceInfo (listeners h) = deviceInfo (render h) ->
  registered (rerender h).
Proof.
  intros Hf Hd. unfold registered, rerender.
  destruct (deps_changed h (commit (render h) (queue h))) eqn:E;
    cbn [queue listeners render]; repeat split.
  - unfold deps_changed in E. apply orb_false_iff in E. destruct E as [_ E].
    apply negb_false_iff, eqb_prop in E. congruence.
  - unfold deps_changed in E. apply orb_false_iff in E. destruct E as [E _].
    rewrite (commit_deviceInfo _ _ E). exact Hd.
Qed.

Lemma step_registered (h : Hook) (e : Browser * Notification) :
  registered h -> registered (step h e).
Proof.
  intros (_ & Hf & Hd). unfold step. apply rerender_registered.
  - destruct (callback_frame (snd e) (listeners h) (fst e) h) as (-> & -> & _).
    exact Hf.
  - destruct (callback_frame (snd e) (listeners h) (fst e) h) as (-> & -> & _).
    exact Hd.
Qed.

Lemma mount_registered (w : Browser) : registered (mount w).
Proof. repeat split. Qed.

Lemma reachable_registered (h : Hook) : reachable h -> registered h.
Proof.
  induction 1 as [w | h e _ IH];
    [apply mount_registered | now apply step_registered].
Qed.

Lemma reachable_run (h : Hook) (es : list (Browser * Notification)) :
  reachable h -> reachable (run h es).
Proof.
  revert h. induction es as [| e es IH]; intros h Hr; [exact Hr |].
  apply IH. now constructor.
Qed.

Lemma run_app (h : Hook) (es1 es2 : list (Browser * Notification)) :
  run h (es1 ++ es2) = run (run h es1) es2.
Proof. unfold run. apply fold_left_app. Qed.

(** [deviceInfo] is written by the first effect only. *)
Lemma step_deviceInfo (h : Hook) (e : Browser * Notification) :
  queue h = [] -> deviceInfo (render (step h e)) = deviceInfo (render h).
Proof.
  intros Hq. unfold step, rerender.
  destruct (callback_frame (snd e) (listeners h) (fst e) h)
    as (Hr & _ & q & Hqueue & Hno).
  rewrite Hq in Hqueue. simpl in Hqueue.
  destruct (deps_changed _ _); cbn [render]; rewrite Hr, Hqueue;
    now apply commit_deviceInfo.
Qed.

Lemma run_deviceInfo (es : list (Browser * Notification)) (h : Hook) :
  registered h -> deviceInfo (render (run h es)) = deviceInfo (render h).
Proof.
  revert h. induction es as [| e es IH]; intros h Hreg; [reflexivity |].
  simpl. rewrite (IH _ (step_registered h e Hreg)).
  apply step_deviceInfo, Hreg.
Qed.

Lemma run_registered (es : list (Browser * Notification)) (h : Hook) :
  registered h -> registered (run h es).
Proof.
  revert h. induction es as [| e es IH]; intros h Hreg; [exact Hreg |].
  simpl. apply IH. now apply step_registered.
Qed.

Lemma mounted_deviceInfo (w0 : Browser) (es : list (Browser * Notification)) :
  deviceInfo (listeners (run (mount w0) es))
  = Some (mkDeviceInfo (window_screen_width w0) (window_screen_height w0)
                       (window_innerWidth w0) (window_innerHeight w0)
                       (detectDeviceType w0)).
Proof.
  destruct (run_registered es _ (mount_registered w0)) as (_ & _ & ->).
  now rewrite (run_deviceInfo es _ (mount_registered w0)).
Qed.

(** ** Key presses *)

(** C9: a key-down notification emits one "key_press" record whose
    key_type is "character" when the key string has length 1 and the key
    name itself otherwise; two hooks that differ only in which one-character
    key was pressed end in the same state. *)
Theorem key_press_hides_character (h : Hook) (w : Browser) (key key' : string) :
  queue h = [] ->
  (String.length key = 1%nat ->
   emitted (requests h (w, keydown key)) = [key_press_record w "character"])
  /\ (String.length key <> 1%nat ->
      emitted (requests h (w, keydown key)) = [key_press_record w key])
  /\ (String.length key = 1%nat -> String.length key' = 1%nat ->
      step h (w, keydown key) = step h (w, keydown key')).
Proof.
  intros Hq. unfold step, requests. cbn [fst snd callback].
  rewrite !handleKeyDown_eq. cbn [queue]. rewrite Hq. unfold key_type.
  repeat split.
  - intros H1. now rewrite H1.
  - intros H1. apply Nat.eqb_neq in H1. now rewrite H1.
  - intros H1 H2. now rewrite H1, H2.
Qed.

Lemma key_press_hides_character_witness :
  let h := mount (browser_at ua_linux 0) in
  let w := browser_at ua_linux 1000 in
  emitted (requests h (w, keydown "a")) = [key_press_record w "character"]
  /\ emitted (requests h (w, keydown "Enter")) = [key_press_record w "Enter"]
  /\ step h (w, keydown "a") = step h (w, keydown "b").
Proof.
  intros h w. split; [| split].
  - apply (proj1 (key_press_hides_character h w "a" "b" eq_refl)). reflexivity.
  - apply (proj1 (proj2 (key_press_hides_character h w "Enter" "b" eq_refl))).
    simpl. discriminate.
  - apply (proj2 (proj2 (key_press_hides_character h w "a" "b" eq_refl)));
      reflexivity.
Defined.

(** ** Clipboard *)

(** C7: a copy, cut or paste notification emits one "clipboard" record
    whose data is the action name and the length of the text involved; two
    hooks that differ only in that text, of one length, end in the same
    state; copying a 50-character selection emits
    {action: "copy", selection: 50}. *)
Theorem clipboard_reports_length_only
    (h : Hook) (w : Browser) (text text' : option string) :
  queue h = [] ->
  length_or_0 text = length_or_0 text' ->
  emitted (requests h (with_selection w text, copy))
    = [clipboard_record w "copy" "selection" (length_or_0 text)]
  /\ emitted (requests h (with_selection w text, cut))
     = [clipboard_record w "cut" "selection" (length_or_0 text)]
  /\ emitted (requests h (w, paste text))
     = [clipboard_record w "paste" "length" (length_or_0 text)]
  /\ step h (with_selection w text, copy) = step h (with_selection w text', copy)
  /\ step h (with_selection w text, cut) = step h (with_selection w text', cut)
  /\ step h (w, paste text) = step h (w, paste text')
  /\ (forall s : string, String.length s = 50%nat ->
      emitted (requests h (with_selection w (Some s), copy))
      = [clipboard_record w "copy" "selection" 50]).
Proof.
  intros Hq Hlen.
  repeat split; unfold_callback; cbn [with_selection window_getSelection
    Date_now window_innerWidth window_innerHeight];
    rewrite ?Hq, ?Hlen; try reflexivity.
  intros s Hs. cbn [length_or_0]. rewrite Hs. reflexivity.
Qed.

Lemma clipboard_reports_length_only_witness :
  let h := mount (browser_at ua_linux 0) in
  let w := browser_at ua_linux 1000 in
  length_or_0 (Some "question 12"%string) = length_or_0 (Some "the answer."%string)
  /\ step h (with_selection w (Some "question 12"%string), copy)
     = step h (with_selection w (Some "the answer."%string), copy)
  /\ emitted (requests h (w, paste (Some "question 12"%string)))
     = [clipboard_record w "paste" "length" 11].
Proof.
  intros h w.
  pose proof (clipboard_reports_length_only h w
                (Some "question 12"%string) (Some "the answer."%string)
                eq_refl eq_refl) as H.
  split; [reflexivity |].
  split; [exact (proj1 (proj2 (proj2 (proj2 H)))) | exact (proj1 (proj2 (proj2 H)))].
Defined.

(** ** The throttle gate *)

Lemma step_mousemove_dropped (h : Hook) (w : Browser) (clientX clientY : Z) :
  queue h = [] ->
  Date_now w - lastMouseMoveTimeRef h < MOUSE_THROTTLE ->
  requests h (w, mousemove clientX clientY) = []
  /\ step h (w, mousemove clientX clientY) = h.
Proof.
  intros Hq Hlt. unfold step, requests. cbn [fst snd callback].
  rewrite handleMouseMove_eq, Z.geb_leb.
  destruct (Z.leb_spec MOUSE_THROTTLE (Date_now w - lastMouseMoveTimeRef h)); [lia |].
  split; [exact Hq | now apply rerender_idle].
Qed.

Lemma step_mousemove_accepted (h : Hook) (w : Browser) (clientX clientY : Z) :
  queue h = [] ->
  MOUSE_THROTTLE <= Date_now w - lastMouseMoveTimeRef h ->
  requests h (w, mousemove clientX clientY)
  = [setLogs_append (mouse_move_record w clientX clientY);
     setMousePositions_append (Pos.mk clientX clientY (Date_now w))]
  /\ lastMouseMoveTimeRef (step h (w, mousemove clientX clientY)) = Date_now w
  /\ lastResizeTimeRef (step h (w, mousemove clientX clientY)) = lastResizeTimeRef h.
Proof.
  intros Hq Hge. unfold step.
  destruct (rerender_refs (callback (snd (w, mousemove clientX clientY))
                                    (listeners h)
                                    (fst (w, mousemove clientX clientY)) h))
    as (_ & -> & -> & _).
  unfold requests. cbn [fst snd callback].
  rewrite handleMouseMove_eq, Z.geb_leb.
  destruct (Z.leb_spec MOUSE_THROTTLE (Date_now w - lastMouseMoveTimeRef h)); [| lia].
  cbn [queue lastMouseMoveTimeRef lastResizeTimeRef]. rewrite Hq.
  repeat split.
Qed.

Lemma step_resize_dropped (h : Hook) (w : Browser) :
  queue h = [] ->
  Date_now w - lastResizeTimeRef h < RESIZE_THROTTLE ->
  requests h (w, resize) = [] /\ step h (w, resize) = h.
Proof.
  intros Hq Hlt. unfold step, requests, callback, handleResize. cbn [fst snd].
  rewrite Z.geb_leb.
  destruct (Z.leb_spec RESIZE_THROTTLE (Date_now w - lastResizeTimeRef h)); [lia |].
  split; [exact Hq | now apply rerender_idle].
Qed.

Lemma step_resize_accepted (h : Hook) (w : Browser) :
  queue h = [] ->
  RESIZE_THROTTLE <= Date_now w - lastResizeTimeRef h ->
  requests h (w, resize) = [setLogs_append (window_resize_record w)]
  /\ lastResizeTimeRef (step h (w, resize)) = Date_now w
  /\ lastMouseMoveTimeRef (step h (w, resize)) = lastMouseMoveTimeRef h.
Proof.
  intros Hq Hge. unfold step.
  destruct (rerender_refs (callback (snd (w, resize)) (listeners h)
                                    (fst (w, resize)) h))
    as (_ & Hm & -> & _). rewrite Hm.
  unfold requests, callback, handleResize. cbn [fst snd].
  rewrite Z.geb_leb.
  destruct (Z.leb_spec RESIZE_THROTTLE (Date_now w - lastResizeTimeRef h)); [| lia].
  unfold_callback. rewrite Hq. cbn. repeat split.
Qed.

(** A burst of moves inside the window opened by the last accepted move
    changes nothing. *)
Lemma run_moves_dropped (burst : list (Browser * (Z * Z))) (h : Hook) :
  queue h = [] ->
  Forall (fun e => Date_now (fst e) - lastMouseMoveTimeRef h < MOUSE_THROTTLE) burst ->
  run h (moves burst) = h.
Proof.
  intros Hq. induction 1 as [| e burst He _ IH]; [reflexivity |].
  simpl. rewrite (proj2 (step_mousemove_dropped h _ _ _ Hq He)). exact IH.
Qed.

Lemma run_resizes_dropped (burst : list Browser) (h : Hook) :
  queue h = [] ->
  Forall (fun w => Date_now w - lastResizeTimeRef h < RESIZE_THROTTLE) burst ->
  run h (resizes burst) = h.
Proof.
  intros Hq. induction 1 as [| w burst He _ IH]; [reflexivity |].
  simpl. rewrite (proj2 (step_resize_dropped h _ Hq He)). exact IH.
Qed.

(** C4: when a pointer move is accepted at time t0, every pointer move
    notified before t0 + 500 is dropped: it asks for nothing, and the hook
    after the whole burst is the hook after the first move, so that the
    burst leaves one "mouse_move" record, that of its first notification;
    the first move notified at t0 + 500 or later is accepted again.
    Resizes are gated in the same way by their own last-accepted time: an
    accepted move does not delay a resize, nor an accepted resize a
    move. *)
Theorem throttle_first_of_window
    (h : Hook) (w0 : Browser) (x0 y0 : Z)
    (burst : list (Browser * (Z * Z))) (rburst : list Browser) :
  queue h = [] ->
  MOUSE_THROTTLE <= Date_now w0 - lastMouseMoveTimeRef h ->
  RESIZE_THROTTLE <= Date_now w0 - lastResizeTimeRef h ->
  Forall (fun e => Date_now (fst e) < Date_now w0 + 500) burst ->
  Forall (fun w => Date_now w < Date_now w0 + 500) rburst ->
  let h1 := step h (w0, mousemove x0 y0) in
  let h2 := step h (w0, resize) in
  emitted (requests h (w0, mousemove x0 y0)) = [mouse_move_record w0 x0 y0]
  /\ Forall (fun e => requests h1 e = []) (moves burst)
  /\ run h1 (moves burst) = h1
  /\ logs (render (run h ((w0, mousemove x0 y0) :: moves burst)))
     = logs (render h) ++ [mouse_move_record w0 x0 y0]
  /\ (forall w x y, Date_now w0 + 500 <= Date_now w ->
      emitted (requests h1 (w, mousemove x y)) = [mouse_move_record w x y])
  /\ emitted (requests h (w0, resize)) = [window_resize_record w0]
  /\ Forall (fun e => requests h2 e = []) (resizes rburst)
  /\ run h2 (resizes rburst) = h2
  /\ logs (render (run h ((w0, resize) :: resizes rburst)))
     = logs (render h) ++ [window_resize_record w0]
  /\ (forall w, Date_now w0 + 500 <= Date_now w ->
      emitted (requests h2 (w, resize)) = [window_resize_record w])
  /\ emitted (requests h1 (w0, resize)) = [window_resize_record w0]
  /\ emitted (requests h2 (w0, mousemove x0 y0)) = [mouse_move_record w0 x0 y0].
Proof.
  intros Hq Hm Hr Hburst Hrburst h1 h2.
  destruct (step_mousemove_accepted h w0 x0 y0 Hq Hm) as (Em & Hm1 & Hr1).
  destruct (step_resize_accepted h w0 Hq Hr) as (Er & Hr2 & Hm2).
  fold h1 in Hm1, Hr1. fold h2 in Hr2, Hm2.
  assert (Hq1 : queue h1 = []) by apply step_queue.
  assert (Hq2 : queue h2 = []) by apply step_queue.
  assert (Hb1 : Forall (fun e => Date_now (fst e) - lastMouseMoveTimeRef h1
                                 < MOUSE_THROTTLE) burst).
  { apply (Forall_impl _ (P := fun e => Date_now (fst e) < Date_now w0 + 500));
      [| exact Hburst].
    intros e He. unfold MOUSE_THROTTLE. rewrite Hm1. lia. }
  assert (Hb2 : Forall (fun w => Date_now w - lastResizeTimeRef h2
                                 < RESIZE_THROTTLE) rburst).
  { apply (Forall_impl _ (P := fun w => Date_now w < Date_now w0 + 500));
      [| exact Hrburst].
    intros w Hw. unfold RESIZE_THROTTLE. rewrite Hr2. lia. }
  unfold MOUSE_THROTTLE, RESIZE_THROTTLE in Hm, Hr.
  repeat split.
  - now rewrite Em.
  - unfold moves. apply Forall_map.
    apply (Forall_impl _ (P := fun e => Date_now (fst e) - lastMouseMoveTimeRef h1
                                        < MOUSE_THROTTLE)); [| exact Hb1].
    intros e He. now apply step_mousemove_dropped.
  - now apply run_moves_dropped.
  - cbn [run fold_left].
    fold (run (step h (w0, mousemove x0 y0)) (moves burst)). fold h1.
    rewrite (run_moves_dropped burst h1 Hq1 Hb1).
    unfold h1. rewrite step_render. fold (requests h (w0, mousemove x0 y0)).
    rewrite Em. reflexivity.
  - intros w x y Hw.
    rewrite (proj1 (step_mousemove_accepted h1 w x y Hq1
                      ltac:(unfold MOUSE_THROTTLE; rewrite Hm1; lia))).
    reflexivity.
  - now rewrite Er.
  - unfold resizes. apply Forall_map.
    apply (Forall_impl _ (P := fun w => Date_now w - lastResizeTimeRef h2
                                        < RESIZE_THROTTLE)); [| exact Hb2].
    intros w Hw. now apply step_resize_dropped.
  - now apply run_resizes_dropped.
  - cbn [run fold_left].
    fold (run (step h (w0, resize)) (resizes rburst)). fold h2.
    rewrite (run_resizes_dropped rburst h2 Hq2 Hb2).
    unfold h2. rewrite step_render. fold (requests h (w0, resize)).
    rewrite Er. reflexivity.
  - intros w Hw.
    rewrite (proj1 (step_resize_accepted h2 w Hq2
                      ltac:(unfold RESIZE_THROTTLE; rewrite Hr2; lia))).
    reflexivity.
  - rewrite (proj1 (step_resize_accepted h1 w0 Hq1
                      ltac:(unfold RESIZE_THROTTLE; rewrite Hr1; lia))).
    reflexivity.
  - rewrite (proj1 (step_mousemove_accepted h2 w0 x0 y0 Hq2
                      ltac:(unfold MOUSE_THROTTLE; rewrite Hm2; lia))).
    reflexivity.
Qed.

Lemma throttle_first_of_window_witness :
  let h := mount (browser_at ua_linux 0) in
  let w0 := browser_at ua_linux 1000 in
  let burst := [(browser_at ua_linux 1100, (11, 10));
                (browser_at ua_linux 1300, (12, 10));
                (browser_at ua_linux 1499, (13, 10))] in
  let h1 := step h (w0, mousemove 10 10) in
  logs (render (run h ((w0, mousemove 10 10) :: moves burst)))
  = [mouse_move_record w0 10 10]
  /\ run h1 (moves burst) = h1
  /\ emitted (requests h1 (browser_at ua_linux 1500, mousemove 14 10))
     = [mouse_move_record (browser_at ua_linux 1500) 14 10].
Proof.
  intros h w0 burst h1.
  assert (Hb : Forall (fun e : Browser * (Z * Z) =>
                         Date_now (fst e) < Date_now w0 + 500) burst)
    by (repeat constructor).
  assert (Hr : Forall (fun w => Date_now w < Date_now w0 + 500)
                      [browser_at ua_linux 1200])
    by (repeat constructor).
  pose proof (throttle_first_of_window h w0 10 10 burst
                [browser_at ua_linux 1200] eq_refl
                ltac:(vm_compute; discriminate) ltac:(vm_compute; discriminate)
                Hb Hr) as H.
  split; [exact (proj1 (proj2 (proj2 (proj2 H)))) |]. split.
  - exact (proj1 (proj2 (proj2 H))).
  - apply (proj1 (proj2 (proj2 (proj2 (proj2 H))))). vm_compute. discriminate.
Defined.

(** ** Window focus *)

Lemma step_focus_same (h : Hook) (w : Browser) (target : bool) :
  registered h -> isFocused (render h) = target ->
  requests h (w, focus_notification target) = []
  /\ step h (w, focus_notification target) = h.
Proof.
  intros (Hq & Hf & _) Ht. rewrite <- Hf in Ht.
  destruct target; cbn [focus_notification]; unfold_callback; rewrite Ht;
    cbn [negb]; (split; [exact Hq | now apply rerender_idle]).
Qed.

Lemma step_focus_flip (h : Hook) (w : Browser) (target : bool) :
  registered h -> isFocused (render h) = negb target ->
  requests h (w, focus_notification target)
  = [setIsFocused target; setLogs_append (window_state_change_record w target)]
  /\ logs (render (step h (w, focus_notification target)))
     = logs (render h) ++ [window_state_change_record w target]
  /\ isFocused (render (step h (w, focus_notification target))) = target.
Proof.
  intros (Hq & Hf & _) Ht. pose proof Ht as Ht'. rewrite <- Hf in Ht'.
  destruct target; cbn [focus_notification]; unfold_callback; rewrite Ht';
    cbn [negb]; unfold rerender, deps_changed, cleanup;
    cbn [queue render]; rewrite Hq, Ht; cbn;
    destruct (inactivityTimerRef h); cbn; repeat split.
Qed.

(** C6: from a reachable hook, a sequence of focus and blur notifications
    adds to the log one "window_state_change" record for each notification
    that flips the flag and none for the others; the first blur of a
    focused window emits one record, and a blur that follows a blur, or a
    focus that follows a focus, emits nothing. *)
Theorem focus_edge_triggered
    (h : Hook) (ns : list (Browser * bool)) (w1 w2 : Browser) :
  reachable h ->
  logs (render (run h (focus_notifications ns)))
  = logs (render h) ++ state_changes (isFocused (render h)) ns
  /\ (isFocused (render h) = true ->
      emitted (requests h (w1, blur)) = [window_state_change_record w1 false])
  /\ emitted (requests (step h (w1, blur)) (w2, blur)) = []
  /\ step (step h (w1, blur)) (w2, blur) = step h (w1, blur)
  /\ emitted (requests (step h (w1, focus)) (w2, focus)) = []
  /\ step (step h (w1, focus)) (w2, focus) = step h (w1, focus).
Proof.
  intros Hreach. split.
  - apply reachable_registered in Hreach. clear w1 w2.
    revert h Hreach. induction ns as [| [w target] ns IH]; intros h Hreg.
    + simpl. now rewrite app_nil_r.
    + cbn [focus_notifications map run fold_left fst snd state_changes].
      fold (focus_notifications ns).
      fold (run (step h (w, focus_notification target)) (focus_notifications ns)).
      destruct (Bool.eqb target (isFocused (render h))) eqn:E.
      * apply eqb_prop in E. symmetry in E.
        rewrite (proj2 (step_focus_same h w target Hreg E)). now apply IH.
      * apply eqb_false_iff in E.
        assert (Hflip : isFocused (render h) = negb target)
          by (destruct target, (isFocused (render h)); simpl; congruence).
        destruct (step_focus_flip h w target Hreg Hflip) as (_ & Hl & Hf).
        rewrite (IH _ (step_registered h _ Hreg)), Hl, Hf, <- app_assoc.
        reflexivity.
  - change blur with (focus_notification false).
    change focus with (focus_notification true).
    assert (Hblur : forall w,
               isFocused (render (step h (w, focus_notification false))) = false).
    { intros w. apply reachable_registered in Hreach.
      destruct (isFocused (render h)) eqn:E.
      - apply (step_focus_flip h w false Hreach E).
      - rewrite (proj2 (step_focus_same h w false Hreach E)). exact E. }
    assert (Hfocus : forall w,
               isFocused (render (step h (w, focus_notification true))) = true).
    { intros w. apply reachable_registered in Hreach.
      destruct (isFocused (render h)) eqn:E.
      - rewrite (proj2 (step_focus_same h w true Hreach E)). exact E.
      - apply (step_focus_flip h w true Hreach E). }
    pose proof (reachable_registered _
                  (reachable_step h (w1, focus_notification false) Hreach)) as Rb.
    pose proof (reachable_registered _
                  (reachable_step h (w1, focus_notification true) Hreach)) as Rf.
    apply reachable_registered in Hreach.
    repeat split.
    + intros E.
      now rewrite (proj1 (step_focus_flip h w1 false Hreach E)).
    + now rewrite (proj1 (step_focus_same _ w2 false Rb (Hblur w1))).
    + exact (proj2 (step_focus_same _ w2 false Rb (Hblur w1))).
    + now rewrite (proj1 (step_focus_same _ w2 true Rf (Hfocus w1))).
    + exact (proj2 (step_focus_same _ w2 true Rf (Hfocus w1))).
Qed.

Lemma focus_edge_triggered_witness :
  let h := mount (browser_at ua_linux 0) in
  let ns := [(browser_at ua_linux 1000, false); (browser_at ua_linux 1200, false);
             (browser_at ua_linux 3000, true); (browser_at ua_linux 3100, true);
             (browser_at ua_linux 9000, false)] in
  logs (render (run h (focus_notifications ns)))
  = [window_state_change_record (browser_at ua_linux 1000) false;
     window_state_change_record (browser_at ua_linux 3000) true;
     window_state_change_record (browser_at ua_linux 9000) false].
Proof.
  intros h ns.
  exact (proj1 (focus_edge_triggered h ns (browser_at ua_linux 1000)
                  (browser_at ua_linux 1200)
                  (reachable_mount (browser_at ua_linux 0)))).
Defined.

(** ** The inactivity task *)

Lemma callback_single_task (n : Notification) (c : State) (w : Browser) (h : Hook) :
  single_task h -> single_task (callback n c w h).
Proof.
  intros Hs.
  assert (Hnew : forall r l q a b due' ,
             single_task
               (mkHook r l q a b (Some (next_handle h))
                       (cleared (inactivityTimerRef h) (timeouts h)
                        ++ [(next_handle h, due')])
                       (S (next_handle h)))).
  { intros. right. exists (next_handle h), due'. split; [| reflexivity].
    cbn [timeouts].
    destruct Hs as [H0 | (i & due & Ht & Hr)].
    - rewrite H0. now destruct (inactivityTimerRef h).
    - rewrite Hr, Ht. cbn. now rewrite Nat.eqb_refl. }
  destruct n; cbn [callback].
  - (* mousemove *)
    rewrite handleMouseMove_eq. destruct (_ >=? _); [apply Hnew | exact Hs].
  - (* keydown *)
    rewrite handleKeyDown_eq. apply Hnew.
  - exact Hs.
  - exact Hs.
  - exact Hs.
  - exact Hs.
  - (* resize *)
    unfold handleResize. destruct (_ >=? _); exact Hs.
  - (* focus *)
    unfold handleFocus. destruct (negb _); exact Hs.
  - (* blur *)
    unfold handleBlur. destruct (isFocused c); exact Hs.
  - (* timeout *)
    unfold timeout_callback, single_task in *.
    destruct Hs as [H0 | (i & due & Ht & Hr)].
    + rewrite H0. cbn [find]. left. exact H0.
    + rewrite Ht. cbn [find fst].
      destruct (Nat.eqb i id) eqn:E.
      * destruct (due <=? Date_now w).
        -- unfold logEvent, enqueue, clearTimeout. cbn [timeouts].
           rewrite Ht. cbn [filter fst]. rewrite E. left. reflexivity.
        -- right. now exists i, due.
      * right. now exists i, due.
  - (* interval *)
    destruct (logs c) as [| e l] eqn:E.
    + now rewrite (interval_callback_idle _ _ _ E).
    + rewrite interval_callback_eq by (rewrite E; discriminate). exact Hs.
Qed.

Lemma rerender_single_task (h : Hook) : single_task h -> single_task (rerender h).
Proof.
  intros Hs. unfold single_task, rerender, cleanup, clearTimeout in *.
  destruct (deps_changed _ _).
  - destruct Hs as [H0 | (i & due & Ht & Hr)].
    + destruct (inactivityTimerRef h); cbn; rewrite H0; left; reflexivity.
    + rewrite Hr. cbn. rewrite Ht. cbn. rewrite Nat.eqb_refl. left. reflexivity.
  - exact Hs.
Qed.

Lemma reachable_single_task (h : Hook) : reachable h -> single_task h.
Proof.
  induction 1 as [w | h e _ IH].
  - left. reflexivity.
  - unfold step. now apply rerender_single_task, callback_single_task.
Qed.

(** At most one delayed task is pending at any time. *)
Lemma at_most_one_pending (h : Hook) :
  reachable h -> (List.length (timeouts h) <= 1)%nat.
Proof.
  intros Hr. destruct (reachable_single_task h Hr) as [-> | (i & due & -> & _)];
    simpl; lia.
Qed.

Lemma cleared_single_task (h : Hook) :
  single_task h -> cleared (inactivityTimerRef h) (timeouts h) = [].
Proof.
  intros [H0 | (i & due & Ht & Hr)].
  - rewrite H0. now destruct (inactivityTimerRef h).
  - rewrite Hr, Ht. cbn. now rewrite Nat.eqb_refl.
Qed.

(** When nothing registers the callbacks again, the debounce works: a key
    press leaves one pending task, due 3000 ms later, and that task, run
    when due, emits one "inactivity" record with duration 3000 and is
    pending no more. *)
Lemma inactivity_after_key_press (h : Hook) (w w' : Browser) (key : string) :
  reachable h ->
  Date_now w + 3000 <= Date_now w' ->
  let h1 := step h (w, keydown key) in
  let task := next_handle h in
  timeouts h1 = [(task, Date_now w + 3000)]
  /\ emitted (requests h1 (w', timeout task))
     = [logged w' "inactivity" [("duration"%string, JNumber 3000)]]
  /\ timeouts (step h1 (w', timeout task)) = [].
Proof.
  intros Hreach Hdue h1 task.
  pose proof (cleared_single_task h (reachable_single_task h Hreach)) as Hc.
  destruct (reachable_registered h Hreach) as (Hq & _).
  assert (E1 : h1 = mkHook (commit (render h)
                              [setLogs_append (key_press_record w (key_type key))])
                           (listeners h) []
                           (lastMouseMoveTimeRef h) (lastResizeTimeRef h)
                           (Some task) [(task, Date_now w + 3000)] (S task)).
  { unfold h1, step. cbn [fst snd callback]. rewrite handleKeyDown_eq, Hc, Hq.
    unfold rerender, deps_changed. cbn. now rewrite eqb_reflx. }
  rewrite E1. unfold step, requests. cbn [fst snd callback].
  unfold timeout_callback. cbn [timeouts find fst].
  rewrite Nat.eqb_refl.
  destruct (Z.leb_spec (Date_now w + 3000) (Date_now w')); [| lia].
  unfold logEvent, enqueue, clearTimeout, rerender, deps_changed.
  cbn. rewrite Nat.eqb_refl, eqb_reflx. cbn. now repeat split.
Qed.

(** C5 on a session: a key press at 1000 schedules the inactivity task for
    4000; the blur at 2000 flips [isFocused], the cleanup of the second
    effect clears the task, and nothing schedules it again: no task is
    pending, so no "inactivity" record follows the quiet period.  Without
    the blur the task emits its record at 4000. *)
Theorem inactivity_lost_on_blur :
  let h1 := step (mount (browser_at ua_linux 0)) (browser_at ua_linux 1000, keydown "a") in
  let h2 := step h1 (browser_at ua_linux 2000, blur) in
  timeouts h1 = [(1%nat, session_start + 4000)]
  /\ emitted (requests h1 (browser_at ua_linux 4000, timeout 1))
     = [logged (browser_at ua_linux 4000) "inactivity" [("duration"%string, JNumber 3000)]]
  /\ timeouts h2 = []
  /\ (forall w id, requests h2 (w, timeout id) = [])
  /\ count_type "inactivity"
       (logs (render (step h2 (browser_at ua_linux 4000, timeout 1)))) = 0%nat.
Proof. repeat split. Qed.

(** ** The movement analysis *)

Section FindIndex.
Context {A : Type} (p : A -> bool).

Lemma findIndex_lower (l : list A) : -1 <= findIndex p l.
Proof.
  induction l as [| a l IH]; simpl; [lia |].
  destruct (p a); [lia |].
  destruct (Z.ltb_spec (findIndex p l) 0); lia.
Qed.

(** A result that is not negative is the position of the first element
    satisfying [p]. *)
Lemma findIndex_found (l : list A) :
  0 <= findIndex p l ->
  exists pre a suf,
    l = pre ++ a :: suf
    /\ Forall (fun b => p b = false) pre
    /\ p a = true
    /\ findIndex p l = Z.of_nat (List.length pre).
Proof.
  induction l as [| b l IH]; simpl; [lia |].
  destruct (p b) eqn:Eb.
  - intros _. exists [], b, l. repeat split; auto.
  - destruct (Z.ltb_spec (findIndex p l) 0) as [Hneg | Hpos]; [lia |].
    intros _. destruct (IH Hpos) as (pre & a & suf & -> & Hpre & Ha & Hi).
    exists (b :: pre), a, suf. repeat split; auto.
    rewrite Hi. simpl List.length. lia.
Qed.

(** A negative result: no element satisfies [p]. *)
Lemma findIndex_none (l : list A) :
  findIndex p l < 0 -> Forall (fun b => p b = false) l.
Proof.
  induction l as [| b l IH]; simpl; [constructor |].
  destruct (p b) eqn:Eb; [lia |].
  destruct (Z.ltb_spec (findIndex p l) 0) as [Hneg | Hpos].
  - intros _. constructor; auto.
  - pose proof (findIndex_lower l). lia.
Qed.

Lemma at_index_middle (pre suf : list A) (a d : A) :
  at_index (pre ++ a :: suf) (Z.of_nat (List.length pre)) d = a.
Proof.
  unfold at_index.
  destruct (Z.ltb_spec (Z.of_nat (List.length pre)) 0); [lia |].
  rewrite Nat2Z.id. apply nth_middle.
Qed.

Lemma at_index_last (front : list A) (a d : A) :
  at_index (front ++ [a]) (Z.of_nat (List.length (front ++ [a])) - 1) d = a.
Proof.
  rewrite length_app. simpl List.length.
  replace (Z.of_nat (List.length front + 1) - 1)
    with (Z.of_nat (List.length front)) by lia.
  apply at_index_middle.
Qed.

End FindIndex.

Lemma before_bound (bound : Z) (l : list Pos.t) :
  Forall (fun pos => (Pos.timestamp pos >=? bound) = false) l ->
  Forall (fun pos => Pos.timestamp pos < bound) l.
Proof.
  apply Forall_impl. intros pos H.
  rewrite Z.geb_leb in H. now apply Z.leb_gt.
Qed.

Lemma second2_spec (retained : list Pos.t) (bound : Z) :
  retained <> [] ->
  let second2Index := findIndex (fun pos => Pos.timestamp pos >=? bound) retained in
  is_second2 retained bound
    (if second2Index >=? 0 then at_index retained second2Index undefined_pos
     else at_index retained 0 undefined_pos).
Proof.
  intros Hne second2Index. rewrite Z.geb_leb.
  destruct (Z.leb_spec 0 second2Index) as [Hfound | Hnone].
  - destruct (findIndex_found _ _ Hfound) as (pre & a & suf & E & Hpre & Ha & Hi).
    unfold second2Index. rewrite Hi, E, at_index_middle.
    left. exists pre, suf. repeat split.
    + now apply before_bound.
    + rewrite Z.geb_leb in Ha. now apply Z.leb_le.
  - right. split.
    + apply before_bound. now apply findIndex_none.
    + destruct retained as [| a rest]; [congruence |]. now exists rest.
Qed.

Lemma second5_spec (retained : list Pos.t) :
  retained <> [] ->
  is_second5 retained
    (at_index retained (Z.of_nat (List.length retained) - 1) undefined_pos).
Proof.
  intros Hne. destruct (exists_last Hne) as (front & a & ->).
  exists front. now rewrite at_index_last.
Qed.

(** What the analysis does with what the callback captured (lines
    155-170): when the captured log is not empty and at least two captured
    samples lie in the trailing 5000 ms, the turn emits exactly one
    "mouse_analysis" record (followed by the "focus_state" record) whose
    distance is the Euclidean distance between S2 (the first such sample
    with timestamp >= window start + 2000, or the earliest one when there
    is none) and S5 (the last one), and whose minimalMovement tells
    whether the distance is below the threshold; with fewer than two such
    samples it emits the "focus_state" record only; with an empty captured
    log it emits nothing. *)
Theorem mouse_analysis_of_tick (h : Hook) (w : Browser) :
  let c := listeners h in
  let windowStart := Date_now w - 5000 in
  let retained :=
    filter (fun pos => Pos.timestamp pos >=? windowStart) (mousePositions c) in
  queue h = [] ->
  (logs c <> [] -> (2 <= List.length retained)%nat ->
   exists S2 S5,
     is_second2 retained (windowStart + 2000) S2
     /\ is_second5 retained S5
     /\ emitted (requests h (w, interval))
        = [mouse_analysis_record w (euclidean S2 S5) (threshold (deviceInfo c));
           focus_state_record w (isFocused c)])
  /\ (logs c <> [] -> (List.length retained < 2)%nat ->
      emitted (requests h (w, interval)) = [focus_state_record w (isFocused c)])
  /\ (logs c = [] -> emitted (requests h (w, interval)) = []).
Proof.
  intros c windowStart retained Hq.
  unfold requests. cbn [fst snd callback]. fold c.
  split; [| split].
  - intros Hne Hlen.
    assert (Hret : retained <> [])
      by (destruct retained; simpl in Hlen; [lia | discriminate]).
    eexists. eexists.
    split; [exact (second2_spec retained (windowStart + 2000) Hret) |].
    split; [exact (second5_spec retained Hret) |].
    rewrite (interval_callback_eq _ _ _ Hne). cbn [queue]. rewrite Hq.
    unfold flush_requests, analysis_requests.
    fold windowStart. fold retained.
    replace (Z.of_nat (List.length retained) >=? 2) with true
      by (symmetry; rewrite Z.geb_leb; apply Z.leb_le; lia).
    reflexivity.
  - intros Hne Hlen.
    rewrite (interval_callback_eq _ _ _ Hne). cbn [queue]. rewrite Hq.
    unfold flush_requests, analysis_requests.
    fold windowStart. fold retained.
    replace (Z.of_nat (List.length retained) >=? 2) with false
      by (symmetry; rewrite Z.geb_leb; apply Z.leb_gt; lia).
    reflexivity.
  - intros He. rewrite (interval_callback_idle _ _ _ He), Hq. reflexivity.
Qed.

(** C2 on a session: pointer moves at 1000 and at 2000, then the turn of
    the interval at 5000.  Two samples lie in the trailing window and two
    records are pending, but the callback registered at mount still sees
    the empty log and the empty buffer of that render: the analysis is not
    run, no "mouse_analysis" record is emitted and nothing is flushed. *)
Theorem no_analysis_on_mounted_session :
  let h := run (mount (browser_at ua_linux 0))
               [(browser_at ua_linux 1000, mousemove 0 0);
                (browser_at ua_linux 2000, mousemove 100 0)] in
  let w := browser_at ua_linux 5000 in
  filter (fun pos => Pos.timestamp pos >=? Date_now w - 5000)
         (mousePositions (render h))
  = [Pos.mk 0 0 (session_start + 1000); Pos.mk 100 0 (session_start + 2000)]
  /\ logs (render h) = [mouse_move_record (browser_at ua_linux 1000) 0 0;
                        mouse_move_record (browser_at ua_linux 2000) 100 0]
  /\ logs (listeners h) = []
  /\ mousePositions (listeners h) = []
  /\ emitted (requests h (w, interval)) = []
  /\ logs (render (step h (w, interval))) = logs (render h).
Proof. vm_compute. repeat split. Qed.

(** ** Pruning of the position buffer *)

(** What a turn of the interval does to the position buffer, by what its
    callback captured (lines 154 and 182): with a captured log that is not
    empty it leaves exactly the samples with timestamp >= tick time - 5000;
    with an empty captured log it leaves the buffer as it was. *)
Theorem prune_on_flush (h : Hook) (w : Browser) :
  queue h = [] ->
  (logs (listeners h) <> [] ->
   mousePositions (render (step h (w, interval)))
   = filter (fun pos => Pos.timestamp pos >=? Date_now w - 5000)
            (mousePositions (render h))
   /\ Forall (fun pos => Date_now w - 5000 <= Pos.timestamp pos)
             (mousePositions (render (step h (w, interval)))))
  /\ (logs (listeners h) = [] ->
      mousePositions (render (step h (w, interval))) = mousePositions (render h)).
Proof.
  intros Hq. rewrite (step_interval _ _ Hq). cbn [render].
  unfold requests, callback. cbn [fst snd]. split.
  - intros Hne. rewrite (interval_callback_commit _ _ _ Hq Hne).
    cbn [mousePositions]. split; [reflexivity |].
    apply Forall_forall. intros pos Hin.
    apply filter_In in Hin. destruct Hin as [_ Hin].
    rewrite Z.geb_leb in Hin. now apply Z.leb_le.
  - intros He. rewrite (interval_callback_idle _ _ _ He), Hq. reflexivity.
Qed.

Lemma prune_on_flush_witness :
  let h := run (mount (browser_at ua_linux 0))
               [(browser_at ua_linux 1000, mousemove 10 10);
                (browser_at ua_linux 2000, blur)] in
  let w := browser_at ua_linux 7000 in
  logs (listeners h) <> []
  /\ mousePositions (render h) = [Pos.mk 10 10 (session_start + 1000)]
  /\ mousePositions (render (step h (w, interval))) = [].
Proof.
  intros h w.
  assert (Hne : logs (listeners h) <> []) by (vm_compute; discriminate).
  split; [exact Hne |]. split; [reflexivity |].
  rewrite (proj1 (proj1 (prune_on_flush h w eq_refl) Hne)).
  reflexivity.
Defined.

(** C3 on a session: a pointer move at 1000, its inactivity task at 4000,
    and the turns of the interval at 5000 and at 10000.  The pending log
    holds two records at both turns, but the callback registered at mount
    still sees the empty log of that render: neither turn prunes, and after
    the turn at 10000 the buffer still holds the sample taken at 1000,
    which is older than the trailing window. *)
Theorem prune_skipped_with_pending_log :
  let h := run (mount (browser_at ua_linux 0))
               [(browser_at ua_linux 1000, mousemove 10 10);
                (browser_at ua_linux 4000, timeout 1);
                (browser_at ua_linux 5000, interval)] in
  let w := browser_at ua_linux 10000 in
  logs (render h)
  = [mouse_move_record (browser_at ua_linux 1000) 10 10;
     logged (browser_at ua_linux 4000) "inactivity" [("duration"%string, JNumber 3000)]]
  /\ logs (listeners h) = []
  /\ requests h (w, interval) = []
  /\ mousePositions (render (step h (w, interval)))
     = [Pos.mk 10 10 (session_start + 1000)]
  /\ session_start + 1000 < Date_now w - 5000.
Proof. vm_compute. repeat split. Qed.

(** ** The flush *)

(** C10: in a session mounted in the browser [w0], whatever happened
    since, the batch a turn of the interval publishes is the captured log
    with, in every record, window_width and window_height (and the other
    device fields) replaced by the values read at mount, and type, data and
    timestamp kept; that batch is the hook's next return value. *)
Theorem flush_overwrites_window_size
    (w0 : Browser) (es : list (Browser * Notification)) (w : Browser) :
  let h := run (mount w0) es in
  published (requests h (w, interval))
  = match logs (listeners h) with
    | [] => []
    | _ :: _ => [map (flushed w0) (logs (listeners h))]
    end
  /\ throttledLogs (render (step h (w, interval)))
     = match logs (listeners h) with
       | [] => throttledLogs (render h)
       | _ :: _ => map (flushed w0) (logs (listeners h))
       end.
Proof.
  intros h.
  assert (Hq : queue h = []) by apply (run_registered es _ (mount_registered w0)).
  pose proof (mounted_deviceInfo w0 es) as Hd. fold h in Hd.
  rewrite (step_interval _ _ Hq). cbn [render].
  unfold requests, callback. cbn [fst snd].
  destruct (logs (listeners h)) as [| e l] eqn:El.
  - rewrite (interval_callback_idle _ _ _ El), Hq. split; reflexivity.
  - assert (Hne : logs (listeners h) <> []) by (rewrite El; discriminate).
    rewrite (interval_callback_published _ _ _ Hq Hne).
    rewrite (interval_callback_commit _ _ _ Hq Hne).
    rewrite Hd, El. split; reflexivity.
Qed.

(** A record logged after the window was resized to 800x600 is published
    with the 1280x720 read at mount. *)
Example flush_discards_resized_viewport :
  let w0 := browser_at ua_linux 0 in
  let h := run (mount w0) [(resized_at ua_linux 1000, keydown "a");
                           (resized_at ua_linux 2000, blur)] in
  map window_width (logs (render h)) = [Some 800; Some 800]
  /\ map window_width (throttledLogs (render (step h (resized_at ua_linux 7000, interval))))
     = [Some 1280; Some 1280].
Proof. vm_compute. split; reflexivity. Qed.

(** The batch of a turn of the interval is made of the log the callback
    closes over: the "focus_state" record the same turn emits is not in
    it, and the turn empties the log of the next render. *)
Lemma interval_drops_focus_state (h : Hook) (w : Browser) :
  queue h = [] -> logs (listeners h) <> [] ->
  In (focus_state_record w (isFocused (listeners h)))
     (emitted (requests h (w, interval)))
  /\ published (requests h (w, interval))
     = [map (withDeviceInfo (deviceInfo (listeners h))) (logs (listeners h))]
  /\ logs (render (step h (w, interval))) = [].
Proof.
  intros Hq Hne. rewrite (step_interval _ _ Hq). cbn [render].
  unfold requests. cbn [fst snd callback].
  rewrite (interval_callback_published _ _ _ Hq Hne).
  rewrite (interval_callback_commit _ _ _ Hq Hne).
  split; [| split; reflexivity].
  rewrite (interval_callback_eq _ _ _ Hne). cbn [queue]. rewrite Hq.
  cbn [app]. unfold flush_requests. rewrite emitted_app.
  apply in_or_app. right. simpl. left. reflexivity.
Qed.

(** The callbacks stay registered over a turn of the interval, so the next
    turn publishes the same batch again. *)
Lemma interval_republishes (h : Hook) (w w' : Browser) :
  queue h = [] -> logs (listeners h) <> [] ->
  published (requests (step h (w, interval)) (w', interval))
  = published (requests h (w, interval)).
Proof.
  intros Hq Hne.
  assert (Hl : listeners (step h (w, interval)) = listeners h)
    by (rewrite (step_interval _ _ Hq); reflexivity).
  unfold requests, callback. cbn [fst snd]. rewrite Hl.
  rewrite (interval_callback_published _ _ _ (step_queue h _) Hne).
  now rewrite (interval_callback_published _ _ _ Hq Hne).
Qed.

(** C1 on a session: a key press at 1000, a blur at 2000, the turn of the
    interval at 7000, a key press at 8000, its inactivity task at 11000 and
    the turn at 12000.  The first turn emits a "focus_state" record that is
    in no batch and is gone from the log afterwards; the second turn
    publishes the records of the first batch again, and clears the second
    key press and the inactivity record, which were never published. *)
Theorem flush_loses_and_repeats :
  let w0 := browser_at ua_linux 0 in
  let key_a := key_press_record (browser_at ua_linux 1000) "character" in
  let blurred := window_state_change_record (browser_at ua_linux 2000) false in
  let key_b := key_press_record (browser_at ua_linux 8000) "character" in
  let quiet := logged (browser_at ua_linux 11000) "inactivity"
                      [("duration"%string, JNumber 3000)] in
  let h1 := run (mount w0) [(browser_at ua_linux 1000, keydown "a");
                            (browser_at ua_linux 2000, blur)] in
  let tick1 := (browser_at ua_linux 7000, interval) in
  let h2 := run (step h1 tick1) [(browser_at ua_linux 8000, keydown "b");
                                 (browser_at ua_linux 11000, timeout 2)] in
  let tick2 := (browser_at ua_linux 12000, interval) in
  logs (render h1) = [key_a; blurred]
  /\ emitted (requests h1 tick1) = [focus_state_record (browser_at ua_linux 7000) false]
  /\ published (requests h1 tick1) = [[flushed w0 key_a; flushed w0 blurred]]
  /\ logs (render (step h1 tick1)) = []
  /\ logs (render h2) = [key_b; quiet]
  /\ published (requests h2 tick2) = [[flushed w0 key_a; flushed w0 blurred]]
  /\ logs (render (step h2 tick2)) = [].
Proof. vm_compute. repeat split. Qed.

(** ** A session in which the window keeps the focus *)


Lemma commit_quiet (q : list Update) (s : State) :
  forallb quiet q = true ->
  isFocused (commit s q) = isFocused s
  /\ throttledLogs (commit s q) = throttledLogs s
  /\ existsb is_setDeviceInfo q = false.
Proof.
  revert s. induction q as [| u q IH]; intros s H; [now repeat split |].
  simpl in H. apply andb_true_iff in H. destruct H as [Hu Hq].
  destruct (IH (apply_update s u) Hq) as (Hf & Ht & Hd).
  unfold commit in *. cbn [fold_left existsb]. rewrite Hf, Ht, Hd.
  destruct u; simpl in *; try discriminate; now repeat split.
Qed.

(** While the callbacks see a focused window and an empty log, only a
    blur can flip the flag or publish a batch. *)
Lemma callback_quiet (n : Notification) (c : State) (w : Browser) (h : Hook) :
  n <> blur -> isFocused c = true -> logs c = [] ->
  exists q, queue (callback n c w h) = queue h ++ q /\ forallb quiet q = true.
Proof.
  intros Hn Hf Hl.
  assert (Hnil : exists q, queue h = queue h ++ q /\ forallb quiet q = true)
    by (exists []; now rewrite app_nil_r).
  destruct n; cbn [callback];
    rewrite ?handleMouseMove_eq, ?handleKeyDown_eq,
            ?(interval_callback_idle _ _ _ Hl);
    try exact Hnil; try congruence.
  all: unfold_callback; rewrite ?Hf; cbn [negb];
    repeat match goal with
           | |- context [if ?b then _ else _] => destruct b
           | |- context [match ?o with Some _ => _ | None => _ end] => destruct o
           | |- context [let '(_, _) := ?p in _] => destruct p
           end;
    cbn [queue]; try exact Hnil;
    eexists; (split; [reflexivity | reflexivity]).
Qed.

(** In a session without a blur the callbacks registered at mount stay,
    with their empty log, so no turn of the interval ever publishes a
    batch, whatever has been logged. *)
Lemma nothing_published_without_blur
    (w0 : Browser) (es : list (Browser * Notification)) :
  Forall (fun e => snd e <> blur) es ->
  logs (listeners (run (mount w0) es)) = []
  /\ throttledLogs (render (run (mount w0) es)) = [].
Proof.
  intros Hes.
  enough (Hinv : forall h,
             queue h = [] -> isFocused (render h) = true ->
             listeners h = listeners (mount w0) ->
             throttledLogs (render h) = [] ->
             logs (listeners (run h es)) = []
             /\ throttledLogs (render (run h es)) = []).
  { now apply Hinv. }
  induction Hes as [| e es He _ IH]; intros h Hq Hf Hl Ht.
  - cbn [run fold_left]. rewrite Hl. now split.
  - cbn [run fold_left]. fold (run (step h e) es).
    assert (Hc : isFocused (listeners h) = true /\ logs (listeners h) = [])
      by (rewrite Hl; now split).
    destruct (callback_quiet (snd e) (listeners h) (fst e) h He
                (proj1 Hc) (proj2 Hc)) as (q & Eq & Hquiet).
    rewrite Hq in Eq. cbn [app] in Eq.
    destruct (commit_quiet q (render h) Hquiet) as (Hf' & Ht' & Hd').
    destruct (callback_frame (snd e) (listeners h) (fst e) h) as (Hr & Hls & _).
    apply IH.
    + apply step_queue.
    + rewrite step_render, Eq, Hf'. exact Hf.
    + unfold step, rerender, deps_changed.
      rewrite Eq, Hr, Hd', Hf', eqb_reflx. cbn [orb negb listeners].
      now rewrite Hls.
    + rewrite step_render, Eq, Ht'. exact Ht.
Qed.

(** * Further properties *)

(** ** Tab visibility *)

Lemma step_visibilitychange (h : Hook) (w : Browser) :
  queue h = [] ->
  requests h (w, visibilitychange) = [setLogs_append (tab_switch_record w)]
  /\ logs (render (step h (w, visibilitychange)))
     = logs (render h) ++ [tab_switch_record w].
Proof.
  intros Hq. rewrite step_render. unfold requests. cbn [fst snd callback].
  unfold handleVisibilityChange, logEvent, enqueue. cbn [queue]. rewrite Hq.
  split; reflexivity.
Qed.

(** Tab visibility is level-triggered: every visibility-change
    notification logs one "tab_switch" record with the status read from
    [document.hidden], whatever the notifications before it said. *)
Theorem tab_switch_level_triggered (h : Hook) (ws : list Browser) :
  queue h = [] ->
  logs (render (run h (visibility_changes ws)))
  = logs (render h) ++ map tab_switch_record ws.
Proof.
  revert h. induction ws as [| w ws IH]; intros h Hq.
  - cbn. now rewrite app_nil_r.
  - cbn [visibility_changes map run fold_left].
    fold (visibility_changes ws).
    fold (run (step h (w, visibilitychange)) (visibility_changes ws)).
    rewrite (IH _ (step_queue h _)).
    rewrite (proj2 (step_visibilitychange h w Hq)), <- app_assoc.
    reflexivity.
Qed.

Lemma tab_switch_level_triggered_witness :
  let h := mount (browser_at ua_linux 0) in
  logs (render (run h (visibility_changes
                         [tab_at ua_linux 1000 true;
                          tab_at ua_linux 1001 true;
                          tab_at ua_linux 9000 false])))
  = [tab_switch_record (tab_at ua_linux 1000 true);
     tab_switch_record (tab_at ua_linux 1001 true);
     tab_switch_record (tab_at ua_linux 9000 false)].
Proof.
  intros h.
  exact (tab_switch_level_triggered h
           [tab_at ua_linux 1000 true; tab_at ua_linux 1001 true;
            tab_at ua_linux 9000 false] eq_refl).
Defined.

(** ** The threshold of a session *)

(** Once mounted, the callbacks always see the device information read at
    mount: the threshold of every analysis is 0.005 times the diagonal of
    the screen as it was at mount, and the fallback 10 is never used. *)
Theorem threshold_fixed_at_mount
    (w0 : Browser) (es : list (Browser * Notification)) :
  getNormalizedThreshold (listeners (run (mount w0) es))
  = PrimFloat.mul lit_0_005
      (PrimFloat.sqrt
         (PrimFloat.add
            (PrimFloat.mul (Number (window_screen_width w0))
                           (Number (window_screen_width w0)))
            (PrimFloat.mul (Number (window_screen_height w0))
                           (Number (window_screen_height w0))))).
Proof.
  unfold getNormalizedThreshold. now rewrite mounted_deviceInfo.
Qed.

(** ** Focus flips and the inactivity task *)

Lemma cleanup_timeouts (h : Hook) :
  timeouts (cleanup h) = cleared (inactivityTimerRef h) (timeouts h).
Proof. unfold cleanup, cleared. now destruct (inactivityTimerRef h). Qed.

(** A notification that flips the focus flag makes the second effect run
    again: the callbacks then close over the new render. *)
Lemma step_flip (h : Hook) (e : Browser * Notification) :
  isFocused (render (step h e)) <> isFocused (render h) ->
  listeners (step h e) = render (step h e)
  /\ timeouts (step h e)
     = cleared (inactivityTimerRef (callback (snd e) (listeners h) (fst e) h))
               (timeouts (callback (snd e) (listeners h) (fst e) h)).
Proof.
  intros Hflip. rewrite step_render in Hflip.
  destruct (callback_frame (snd e) (listeners h) (fst e) h) as (Hr & _).
  unfold step, rerender, deps_changed. rewrite Hr.
  apply Bool.eqb_false_iff in Hflip. rewrite Hflip, orb_true_r.
  cbn [listeners render timeouts]. split; [reflexivity | apply cleanup_timeouts].
Qed.

(** Whenever a notification flips the focus flag, no inactivity task is
    pending afterwards: the cleanup of the second effect cleared it and
    nothing scheduled it again. *)
Theorem focus_flip_clears_inactivity_task (h : Hook) (e : Browser * Notification) :
  reachable h ->
  isFocused (render (step h e)) <> isFocused (render h) ->
  timeouts (step h e) = [].
Proof.
  intros Hreach Hflip.
  rewrite (proj2 (step_flip h e Hflip)).
  apply cleared_single_task, callback_single_task.
  now apply reachable_single_task.
Qed.

Lemma focus_flip_clears_inactivity_task_witness :
  let h := step (mount (browser_at ua_linux 0)) (browser_at ua_linux 1000, mousemove 5 5) in
  timeouts h = [(1%nat, session_start + 4000)]
  /\ timeouts (step h (browser_at ua_linux 2000, blur)) = [].
Proof.
  intros h. split; [reflexivity |].
  apply (focus_flip_clears_inactivity_task h (browser_at ua_linux 2000, blur)).
  - apply reachable_step, reachable_mount.
  - vm_compute. discriminate.
Defined.

(** ** Key presses and the debounce *)

(** A key press on a hook with at most one pending task: one record, and
    the only pending task is the new one. *)
Lemma step_keydown_eq (h : Hook) (w : Browser) (key : string) :
  queue h = [] -> single_task h ->
  step h (w, keydown key)
  = mkHook (commit (render h) [setLogs_append (key_press_record w (key_type key))])
           (listeners h) []
           (lastMouseMoveTimeRef h) (lastResizeTimeRef h)
           (Some (next_handle h))
           [(next_handle h, Date_now w + 3000)]
           (S (next_handle h)).
Proof.
  intros Hq Hs. unfold step. cbn [fst snd callback].
  rewrite handleKeyDown_eq, (cleared_single_task h Hs), Hq.
  unfold rerender, deps_changed. cbn. now rewrite eqb_reflx.
Qed.

(** Key presses are never throttled and never pile up tasks: every key
    press of a sequence is logged, in order, and after the sequence one
    inactivity task is pending, due 3000 ms after the last key press. *)
Theorem key_presses_debounce
    (ks : list (Browser * string)) (h : Hook) (w : Browser) (key : string) :
  reachable h ->
  let h' := run h (key_presses (ks ++ [(w, key)])) in
  logs (render h')
  = logs (render h)
    ++ map (fun k => key_press_record (fst k) (key_type (snd k))) (ks ++ [(w, key)])
  /\ timeouts h' = [((next_handle h + List.length ks)%nat, Date_now w + 3000)].
Proof.
  revert h. induction ks as [| [w1 k1] ks IH]; intros h Hreach.
  - cbn [app key_presses map run fold_left fst snd List.length].
    rewrite (step_keydown_eq h w key);
      [| apply (reachable_registered h Hreach) | now apply reachable_single_task].
    cbn. now rewrite Nat.add_0_r.
  - cbn [app key_presses map run fold_left fst snd List.length].
    fold (key_presses (ks ++ [(w, key)])).
    fold (run (step h (w1, keydown k1)) (key_presses (ks ++ [(w, key)]))).
    destruct (IH (step h (w1, keydown k1)) (reachable_step h _ Hreach)) as [Hl Ht].
    rewrite Hl, Ht.
    rewrite (step_keydown_eq h w1 k1);
      [| apply (reachable_registered h Hreach) | now apply reachable_single_task].
    cbn. rewrite <- app_assoc, Nat.add_succ_r. now split.
Qed.

Lemma key_presses_debounce_witness :
  let h := mount (browser_at ua_linux 0) in
  let h' := run h (key_presses [(browser_at ua_linux 1000, "H"%string);
                                (browser_at ua_linux 1050, "i"%string);
                                (browser_at ua_linux 1900, "Enter"%string)]) in
  logs (render h')
  = [key_press_record (browser_at ua_linux 1000) "character";
     key_press_record (browser_at ua_linux 1050) "character";
     key_press_record (browser_at ua_linux 1900) "Enter"]
  /\ timeouts h' = [(3%nat, session_start + 4900)].
Proof.
  intros h.
  exact (key_presses_debounce
           [(browser_at ua_linux 1000, "H"%string); (browser_at ua_linux 1050, "i"%string)]
           h (browser_at ua_linux 1900) "Enter"
           (reachable_mount (browser_at ua_linux 0))).
Defined.

(** A passive notification leaves the timers, the refs and the registered
    callbacks as they are. *)
Lemma step_passive (h : Hook) (w : Browser) (n : Notification) :
  queue h = [] -> passive n = true ->
  timeouts (step h (w, n)) = timeouts h
  /\ inactivityTimerRef (step h (w, n)) = inactivityTimerRef h
  /\ next_handle (step h (w, n)) = next_handle h.
Proof.
  intros Hq Hp.
  destruct n; try discriminate Hp.
  1-4: unfold_callback; unfold rerender, deps_changed; cbn; rewrite Hq; cbn;
    rewrite eqb_reflx; cbn; now repeat split.
  - unfold_callback. destruct (_ >=? _).
    + unfold rerender, deps_changed; cbn; rewrite Hq; cbn;
        rewrite eqb_reflx; cbn; now repeat split.
    + rewrite (rerender_idle h Hq). now repeat split.
  - rewrite (step_interval h w Hq). now repeat split.
Qed.

Lemma run_passive (es : list (Browser * Notification)) (h : Hook) :
  queue h = [] -> Forall (fun e => passive (snd e) = true) es ->
  timeouts (run h es) = timeouts h.
Proof.
  intros Hq Hes. revert h Hq.
  induction Hes as [| [w n] es Hp _ IH]; intros h Hq; [reflexivity |].
  cbn [run fold_left]. fold (run (step h (w, n)) es).
  rewrite (IH _ (step_queue h _)). now apply step_passive.
Qed.

(** Clipboard actions, tab switches, resizes and turns of the interval are
    no activity for the inactivity watchdog: whatever passive notifications
    follow a key press, the task it scheduled is still pending and, run
    when due, emits its "inactivity" record. *)
Theorem inactivity_survives_passive_notifications
    (h : Hook) (w w' : Browser) (key : string)
    (es : list (Browser * Notification)) :
  reachable h ->
  Forall (fun e => passive (snd e) = true) es ->
  Date_now w + 3000 <= Date_now w' ->
  let h1 := run (step h (w, keydown key)) es in
  timeouts h1 = [(next_handle h, Date_now w + 3000)]
  /\ emitted (requests h1 (w', timeout (next_handle h)))
     = [logged w' "inactivity" [("duration"%string, JNumber 3000)]].
Proof.
  intros Hreach Hes Hdue h1.
  assert (Ht : timeouts h1 = [(next_handle h, Date_now w + 3000)]).
  { unfold h1. rewrite (run_passive es _ (step_queue h _) Hes).
    rewrite (step_keydown_eq h w key);
      [reflexivity | apply (reachable_registered h Hreach)
       | now apply reachable_single_task]. }
  split; [exact Ht |].
  assert (Hq1 : queue h1 = [])
    by (apply (reachable_registered h1);
        apply reachable_run, reachable_step, Hreach).
  unfold requests. cbn [fst snd callback]. unfold timeout_callback.
  rewrite Ht. cbn [find fst]. rewrite Nat.eqb_refl.
  destruct (Z.leb_spec (Date_now w + 3000) (Date_now w')); [| lia].
  unfold logEvent, enqueue. cbn [queue clearTimeout]. now rewrite Hq1.
Qed.

Lemma inactivity_survives_passive_notifications_witness :
  let h := mount (browser_at ua_linux 0) in
  let es := [(with_selection (browser_at ua_linux 1500) (Some "text"%string), copy);
             (tab_at ua_linux 2000 true, visibilitychange);
             (browser_at ua_linux 2500, resize);
             (browser_at ua_linux 3000, paste (Some "text"%string))] in
  emitted (requests (run (step h (browser_at ua_linux 1000, keydown "a")) es)
                    (browser_at ua_linux 4000, timeout 1))
  = [logged (browser_at ua_linux 4000) "inactivity" [("duration"%string, JNumber 3000)]].
Proof.
  intros h es.
  apply (inactivity_survives_passive_notifications h
           (browser_at ua_linux 1000) (browser_at ua_linux 4000) "a" es
           (reachable_mount (browser_at ua_linux 0))).
  - repeat constructor.
  - vm_compute. discriminate.
Defined.

(** ** The position buffer *)

Lemma spaced_snoc (l : list Pos.t) (p : Pos.t) :
  spaced l ->
  Forall (fun a => Pos.timestamp a + MOUSE_THROTTLE <= Pos.timestamp p) l ->
  spaced (l ++ [p]).
Proof.
  unfold spaced. induction l as [| a l IH]; intros Hs Hl; cbn.
  - repeat constructor.
  - apply StronglySorted_inv in Hs. destruct Hs as [Hs Ha].
    apply Forall_cons_iff in Hl. destruct Hl as [Hap Hl].
    constructor; [now apply IH |].
    apply Forall_app. split; [exact Ha | now constructor].
Qed.

Lemma spaced_filter (f : Pos.t -> bool) (l : list Pos.t) :
  spaced l -> spaced (filter f l).
Proof.
  unfold spaced. induction l as [| a l IH]; intros Hs; cbn; [constructor |].
  apply StronglySorted_inv in Hs. destruct Hs as [Hs Ha].
  destruct (f a); [| now apply IH].
  constructor; [now apply IH |].
  apply Forall_forall. intros b Hb. apply filter_In in Hb.
  rewrite Forall_forall in Ha. now apply Ha.
Qed.

(** Samples that are 500 apart and lie between [lo] and [hi]: there are
    at most (hi - lo) / 500 + 1 of them. *)
Lemma spaced_length (l : list Pos.t) (lo hi : Z) :
  spaced l ->
  Forall (fun p => lo <= Pos.timestamp p <= hi) l ->
  l = [] \/ MOUSE_THROTTLE * (Z.of_nat (List.length l) - 1) <= hi - lo.
Proof.
  unfold spaced, MOUSE_THROTTLE. revert lo.
  induction l as [| a l IH]; intros lo Hs Hb; [now left | right].
  apply StronglySorted_inv in Hs. destruct Hs as [Hs Ha].
  apply Forall_cons_iff in Hb. destruct Hb as [Hab Hb].
  destruct (IH (Pos.timestamp a + 500) Hs) as [-> | Hlen].
  - rewrite Forall_forall in *. intros b Hin.
    specialize (Ha b Hin). specialize (Hb b Hin). lia.
  - cbn. lia.
  - cbn [List.length]. lia.
Qed.

(** What a notification does to the position buffer and to the time of
    the last accepted move: nothing, or an accepted move appends its
    sample, or a flush prunes the buffer. *)
Lemma step_positions (h : Hook) (e : Browser * Notification) :
  queue h = [] ->
  (mousePositions (render (step h e)) = mousePositions (render h)
   /\ lastMouseMoveTimeRef (step h e) = lastMouseMoveTimeRef h)
  \/ (exists x y,
         MOUSE_THROTTLE <= Date_now (fst e) - lastMouseMoveTimeRef h
         /\ mousePositions (render (step h e))
            = mousePositions (render h) ++ [Pos.mk x y (Date_now (fst e))]
         /\ lastMouseMoveTimeRef (step h e) = Date_now (fst e))
  \/ (exists windowStart,
         mousePositions (render (step h e))
         = filter (fun pos => Pos.timestamp pos >=? windowStart)
                  (mousePositions (render h))
         /\ lastMouseMoveTimeRef (step h e) = lastMouseMoveTimeRef h).
Proof.
  intros Hq. destruct e as [w n]. rewrite step_render.
  unfold step.
  destruct (rerender_refs (callback (snd (w, n)) (listeners h) (fst (w, n)) h))
    as (_ & -> & _).
  cbn [fst snd]. destruct n; cbn [callback].
  - (* mousemove *)
    rewrite handleMouseMove_eq, Z.geb_leb.
    destruct (Z.leb_spec MOUSE_THROTTLE (Date_now w - lastMouseMoveTimeRef h)).
    + right. left. exists clientX, clientY.
      cbn [queue lastMouseMoveTimeRef]. rewrite Hq. now repeat split.
    + left. rewrite Hq. now split.
  - rewrite handleKeyDown_eq. cbn [queue lastMouseMoveTimeRef]. rewrite Hq.
    left. now split.
  - left. unfold_callback. rewrite Hq. now split.
  - left. unfold_callback. rewrite Hq. now split.
  - left. unfold_callback. rewrite Hq. now split.
  - left. unfold_callback. rewrite Hq. now split.
  - left. unfold_callback. destruct (_ >=? _); cbn; rewrite Hq; now split.
  - left. unfold_callback. destruct (negb _); cbn; rewrite Hq; now split.
  - left. unfold_callback. destruct (isFocused _); cbn; rewrite Hq; now split.
  - left. unfold_callback.
    destruct (find _ _) as [[i due] |]; [destruct (due <=? Date_now w) |];
      cbn; rewrite Hq; now split.
  - destruct (logs (listeners h)) as [| r l] eqn:El.
    + left. rewrite (interval_callback_idle _ _ _ El), Hq. now split.
    + right. right. exists (Date_now w - 5000).
      rewrite interval_callback_eq by (rewrite El; discriminate).
      cbn [queue lastMouseMoveTimeRef]. rewrite Hq. cbn [app].
      rewrite flush_requests_commit. now split.
Qed.

Lemma step_spaced (h : Hook) (e : Browser * Notification) :
  queue h = [] ->
  spaced (mousePositions (render h))
  /\ Forall (fun p => Pos.timestamp p <= lastMouseMoveTimeRef h)
            (mousePositions (render h)) ->
  spaced (mousePositions (render (step h e)))
  /\ Forall (fun p => Pos.timestamp p <= lastMouseMoveTimeRef (step h e))
            (mousePositions (render (step h e))).
Proof.
  intros Hq [Hs Hb].
  destruct (step_positions h e Hq)
    as [[-> ->] | [(x & y & Hacc & -> & ->) | (ws & -> & ->)]].
  - now split.
  - split.
    + apply spaced_snoc; [exact Hs |].
      apply (Forall_impl _ (P := fun p => Pos.timestamp p <= lastMouseMoveTimeRef h));
        [| exact Hb].
      intros p Hp. cbn [Pos.timestamp]. lia.
    + apply Forall_app. split.
      * apply (Forall_impl _ (P := fun p => Pos.timestamp p <= lastMouseMoveTimeRef h));
          [| exact Hb].
        intros p Hp. unfold MOUSE_THROTTLE in Hacc. lia.
      * constructor; [cbn; lia | constructor].
  - split; [now apply spaced_filter |].
    apply Forall_forall. intros p Hp. apply filter_In in Hp.
    rewrite Forall_forall in Hb. now apply Hb.
Qed.

(** In every session the samples of the position buffer are in the order
    of their timestamps, consecutive ones at least 500 ms apart, and none
    is later than the last accepted pointer move, whatever the clock
    did. *)
Theorem samples_spaced (h : Hook) :
  reachable h ->
  spaced (mousePositions (render h))
  /\ Forall (fun p => Pos.timestamp p <= lastMouseMoveTimeRef h)
            (mousePositions (render h)).
Proof.
  induction 1 as [w | h e Hreach IH].
  - split; constructor.
  - apply step_spaced; [apply (reachable_registered h Hreach) | exact IH].
Qed.

Lemma samples_spaced_witness :
  let h := run (mount (browser_at ua_linux 0))
               [(browser_at ua_linux 1000, mousemove 1 1);
                (browser_at ua_linux 1200, mousemove 2 2);
                (browser_at ua_linux 1600, mousemove 3 3);
                (browser_at ua_linux 900, mousemove 4 4)] in
  mousePositions (render h)
  = [Pos.mk 1 1 (session_start + 1000); Pos.mk 3 3 (session_start + 1600)]
  /\ spaced (mousePositions (render h)).
Proof.
  intros h. split; [reflexivity |].
  apply (samples_spaced h). apply reachable_run, reachable_mount.
Defined.

(** After a flush the position buffer is short: when the clock has not
    gone back since the last accepted pointer move, a turn of the interval
    whose callback finds its log non-empty leaves at most 11 samples. *)
Theorem buffer_bounded_after_flush (h : Hook) (w : Browser) :
  reachable h ->
  logs (listeners h) <> [] ->
  lastMouseMoveTimeRef h <= Date_now w ->
  (List.length (mousePositions (render (step h (w, interval)))) <= 11)%nat.
Proof.
  intros Hreach Hne Hclock.
  assert (Hq : queue h = []) by apply (reachable_registered h Hreach).
  assert (Hinv : spaced (mousePositions (render h))
                 /\ Forall (fun p => Pos.timestamp p <= lastMouseMoveTimeRef h)
                           (mousePositions (render h))).
  { clear Hne Hclock Hq. induction Hreach as [w0 | h e Hreach IH].
    - split; constructor.
    - apply step_spaced; [apply (reachable_registered h Hreach) | exact IH]. }
  destruct Hinv as [Hs Hb].
  rewrite step_render. cbn [fst snd callback].
  rewrite (interval_callback_commit _ _ _ Hq Hne). cbn [mousePositions].
  destruct (spaced_length
              (filter (fun pos => Pos.timestamp pos >=? Date_now w - 5000)
                      (mousePositions (render h)))
              (Date_now w - 5000) (Date_now w)) as [-> | Hlen].
  - now apply spaced_filter.
  - apply Forall_forall. intros p Hp. apply filter_In in Hp.
    destruct Hp as [Hin Hp]. rewrite Z.geb_leb in Hp. apply Z.leb_le in Hp.
    rewrite Forall_forall in Hb. specialize (Hb p Hin). lia.
  - cbn. lia.
  - unfold MOUSE_THROTTLE in Hlen. lia.
Qed.

Lemma buffer_bounded_after_flush_witness :
  let h := run (mount (browser_at ua_linux 0))
               [(browser_at ua_linux 1000, mousemove 1 1);
                (browser_at ua_linux 1600, mousemove 3 3);
                (browser_at ua_linux 2000, blur)] in
  let w := browser_at ua_linux 6200 in
  mousePositions (render (step h (w, interval))) = [Pos.mk 3 3 (session_start + 1600)]
  /\ (List.length (mousePositions (render (step h (w, interval)))) <= 11)%nat.
Proof.
  intros h w. split; [reflexivity |].
  apply (buffer_bounded_after_flush h w).
  - apply reachable_run, reachable_mount.
  - vm_compute. discriminate.
  - vm_compute. discriminate.
Defined.

(** ** What is published, and when *)

(** Apart from the focus handlers and the interval, a callback only
    appends to the log and to the buffer. *)
Lemma callback_appends (n : Notification) (c : State) (w : Browser) (h : Hook) :
  is_focus_or_blur n = false -> n <> interval ->
  exists q, queue (callback n c w h) = queue h ++ q /\ forallb appends q = true.
Proof.
  intros Hn Hi.
  assert (Hnil : exists q, queue h = queue h ++ q /\ forallb appends q = true)
    by (exists []; now rewrite app_nil_r).
  destruct n; try discriminate Hn; try congruence; cbn [callback];
    rewrite ?handleMouseMove_eq, ?handleKeyDown_eq.
  all: unfold_callback;
    repeat match goal with
           | |- context [if ?b then _ else _] => destruct b
           | |- context [match ?o with Some _ => _ | None => _ end] => destruct o
           | |- context [let '(_, _) := ?p in _] => destruct p
           end;
    cbn [queue]; try exact Hnil;
    eexists; (split; [reflexivity | reflexivity]).
Qed.

Lemma commit_appends (q : list Update) (s : State) :
  forallb appends q = true ->
  logs (commit s q) = logs s ++ emitted q
  /\ throttledLogs (commit s q) = throttledLogs s
  /\ isFocused (commit s q) = isFocused s
  /\ existsb is_setDeviceInfo q = false.
Proof.
  revert s. induction q as [| u q IH]; intros s H.
  - cbn. now rewrite app_nil_r.
  - simpl in H. apply andb_true_iff in H. destruct H as [Hu Hq].
    destruct (IH (apply_update s u) Hq) as (Hl & Ht & Hf & Hd).
    unfold commit in *. cbn [fold_left existsb]. rewrite Hl, Ht, Hf, Hd.
    destruct u; simpl in *; try discriminate; rewrite <- ?app_assoc;
      now repeat split.
Qed.

(** A notification that does not flip the focus flag leaves the
    registered callbacks in place. *)
Lemma step_no_flip (h : Hook) (e : Browser * Notification) :
  queue h = [] ->
  isFocused (render (step h e)) = isFocused (render h) ->
  listeners (step h e) = listeners h.
Proof.
  intros Hq Hf. rewrite step_render in Hf.
  destruct (callback_frame (snd e) (listeners h) (fst e) h)
    as (Hr & Hl & q & Eq & Hd).
  unfold step, rerender, deps_changed.
  rewrite Hr, Hf, eqb_reflx, Eq, Hq. cbn [app]. rewrite Hd.
  cbn [orb negb listeners]. exact Hl.
Qed.

Lemma step_not_focus_or_blur (h : Hook) (e : Browser * Notification) :
  queue h = [] -> is_focus_or_blur (snd e) = false ->
  listeners (step h e) = listeners h.
Proof.
  intros Hq Hn. apply (step_no_flip h e Hq). rewrite step_render.
  destruct e as [w n]. cbn [fst snd] in *.
  destruct n; try discriminate Hn.
  9: { destruct (logs (listeners h)) as [| r l] eqn:El.
        - cbn [callback]. now rewrite (interval_callback_idle _ _ _ El), Hq.
        - cbn [callback]. rewrite interval_callback_eq by (rewrite El; discriminate).
          cbn [queue]. rewrite Hq. cbn [app]. now rewrite flush_requests_commit. }
  all: match goal with
       | |- context [callback ?n _ _ _] =>
           destruct (callback_appends n (listeners h) w h eq_refl
                       ltac:(discriminate)) as (q & -> & Hq');
           rewrite Hq; cbn [app];
           exact (proj1 (proj2 (proj2 (commit_appends q (render h) Hq'))))
       end.
Qed.

(** Between two focus flips the batch never changes: as long as no focus
    or blur notification comes, every turn of the interval publishes the
    log the callbacks captured at the last registration, whatever has been
    logged or flushed since. *)
Theorem batch_fixed_until_next_flip
    (es : list (Browser * Notification)) (h : Hook) (w : Browser) :
  queue h = [] ->
  logs (listeners h) <> [] ->
  Forall (fun e => is_focus_or_blur (snd e) = false) es ->
  published (requests (run h es) (w, interval))
  = [map (withDeviceInfo (deviceInfo (listeners h))) (logs (listeners h))].
Proof.
  intros Hq Hne Hes.
  assert (Hl : listeners (run h es) = listeners h /\ queue (run h es) = []).
  { revert h Hq Hne. induction Hes as [| e es He _ IH]; intros h Hq Hne.
    - now split.
    - cbn [run fold_left]. fold (run (step h e) es).
      pose proof (step_not_focus_or_blur h e Hq He) as Hs.
      destruct (IH (step h e) (step_queue h e)) as [Hl' Hq'];
        [now rewrite Hs |].
      split; [now rewrite Hl' | exact Hq']. }
  destruct Hl as [Hl Hq'].
  unfold requests. cbn [fst snd callback]. rewrite Hl.
  now apply interval_callback_published.
Qed.

Lemma batch_fixed_until_next_flip_witness :
  let w0 := browser_at ua_linux 0 in
  let h := run (mount w0) [(browser_at ua_linux 1000, keydown "a");
                           (browser_at ua_linux 2000, blur)] in
  let es := [(browser_at ua_linux 7000, interval);
             (browser_at ua_linux 8000, keydown "b");
             (browser_at ua_linux 9000, mousemove 3 4);
             (browser_at ua_linux 12000, interval)] in
  published (requests (run h es) (browser_at ua_linux 17000, interval))
  = [[flushed w0 (key_press_record (browser_at ua_linux 1000) "character");
      flushed w0 (window_state_change_record (browser_at ua_linux 2000) false)]].
Proof.
  intros w0 h es.
  rewrite (batch_fixed_until_next_flip es h (browser_at ua_linux 17000) eq_refl).
  - reflexivity.
  - vm_compute. discriminate.
  - repeat constructor.
Defined.

(** A turn of the interval that follows a focus flip publishes what was
    pending at the flip: the log of that moment, the record of the flip
    included, each record with the device information read at mount. *)
Theorem tick_after_flip_publishes_pending
    (w0 : Browser) (es : list (Browser * Notification))
    (w w' : Browser) (target : bool) :
  let h := run (mount w0) es in
  isFocused (render h) = negb target ->
  published (requests (step h (w, focus_notification target)) (w', interval))
  = [map (flushed w0) (logs (render h) ++ [window_state_change_record w target])].
Proof.
  intros h Hflip.
  assert (Hreg : registered h) by apply run_registered, mount_registered.
  destruct (step_focus_flip h w target Hreg Hflip) as (_ & Hl & Hf).
  assert (Hne : isFocused (render (step h (w, focus_notification target)))
                <> isFocused (render h))
    by (rewrite Hf, Hflip; now destruct target).
  destruct (step_flip h _ Hne) as [Hls _].
  assert (Hd : deviceInfo (listeners (step h (w, focus_notification target)))
               = Some (mkDeviceInfo (window_screen_width w0) (window_screen_height w0)
                                    (window_innerWidth w0) (window_innerHeight w0)
                                    (detectDeviceType w0))).
  { pose proof (mounted_deviceInfo w0 (es ++ [(w, focus_notification target)])) as H.
    rewrite run_app in H. exact H. }
  unfold requests. cbn [fst snd callback].
  rewrite interval_callback_published.
  - rewrite Hd, Hls, Hl. reflexivity.
  - apply step_queue.
  - rewrite Hls, Hl. now destruct (logs (render h)).
Qed.

Lemma tick_after_flip_publishes_pending_witness :
  let w0 := browser_at ua_linux 0 in
  let es := [(browser_at ua_linux 1000, keydown "a");
             (browser_at ua_linux 1600, mousemove 3 4)] in
  published (requests (step (run (mount w0) es) (browser_at ua_linux 2000, blur))
                      (browser_at ua_linux 7000, interval))
  = [[flushed w0 (key_press_record (browser_at ua_linux 1000) "character");
      flushed w0 (mouse_move_record (browser_at ua_linux 1600) 3 4);
      flushed w0 (window_state_change_record (browser_at ua_linux 2000) false)]].
Proof.
  intros w0 es.
  exact (tick_after_flip_publishes_pending w0 es (browser_at ua_linux 2000)
           (browser_at ua_linux 7000) false eq_refl).
Defined.

(** What a notification does to the returned batch: nothing, or a flush
    replaces it by the captured log with the captured device
    information. *)
Lemma step_throttledLogs (h : Hook) (e : Browser * Notification) :
  queue h = [] ->
  throttledLogs (render (step h e)) = throttledLogs (render h)
  \/ throttledLogs (render (step h e))
     = map (withDeviceInfo (deviceInfo (listeners h))) (logs (listeners h)).
Proof.
  intros Hq. rewrite step_render. destruct e as [w n]. cbn [fst snd].
  destruct (is_focus_or_blur n) eqn:Hn.
  - left. destruct n; try discriminate Hn; unfold_callback;
      [destruct (negb _) | destruct (isFocused _)]; cbn; now rewrite Hq.
  - destruct n; try discriminate Hn.
    9: { destruct (logs (listeners h)) as [| r l] eqn:El.
         - left. cbn [callback]. now rewrite (interval_callback_idle _ _ _ El), Hq.
         - right. cbn [callback].
           rewrite interval_callback_eq by (rewrite El; discriminate).
           cbn [queue]. rewrite Hq. cbn [app]. rewrite flush_requests_commit.
           cbn [throttledLogs]. now rewrite El. }
    all: left;
      match goal with
      | |- context [callback ?n _ _ _] =>
          destruct (callback_appends n (listeners h) w h eq_refl
                      ltac:(discriminate)) as (q & -> & Hq');
          rewrite Hq; cbn [app];
          exact (proj1 (proj2 (commit_appends q (render h) Hq')))
      end.
Qed.

(** Whatever the hook returns in a session carries the device information
    read at mount: no returned record misses device_type, screen or window
    size, and none has the sizes of a later moment. *)
Theorem returned_records_carry_mount_info
    (w0 : Browser) (es : list (Browser * Notification)) :
  Forall (carries_info w0) (throttledLogs (render (run (mount w0) es))).
Proof.
  induction es as [| e es IH] using rev_ind.
  - constructor.
  - rewrite run_app. cbn [run fold_left].
    assert (Hq : queue (run (mount w0) es) = [])
      by apply run_registered, mount_registered.
    destruct (step_throttledLogs (run (mount w0) es) e Hq) as [-> | ->];
      [exact IH |].
    rewrite mounted_deviceInfo. apply Forall_map, Forall_forall.
    intros r _. now repeat split.
Qed.

(** ** A session in which the window keeps the focus, continued *)

Lemma step_focused (h : Hook) (e : Browser * Notification) :
  queue h = [] ->
  isFocused (render h) = true ->
  isFocused (listeners h) = true ->
  logs (listeners h) = [] ->
  snd e <> blur ->
  isFocused (render (step h e)) = true
  /\ listeners (step h e) = listeners h
  /\ logs (render (step h e)) = logs (render h) ++ emitted (requests h e)
  /\ mousePositions (render (step h e))
     = mousePositions (render h)
       ++ flat_map (fun u => match u with
                             | setMousePositions_append p => [p]
                             | _ => []
                             end) (requests h e).
Proof.
  intros Hq Hf Hlf Hl Hn.
  assert (Hidle : queue (callback (snd e) (listeners h) (fst e) h) = [] ->
                  isFocused (render (step h e)) = true
                  /\ listeners (step h e) = listeners h
                  /\ logs (render (step h e)) = logs (render h) ++ emitted (requests h e)
                  /\ mousePositions (render (step h e))
                     = mousePositions (render h)
                       ++ flat_map (fun u => match u with
                                             | setMousePositions_append p => [p]
                                             | _ => []
                                             end) (requests h e)).
  { intros E.
    assert (Hr : render (step h e) = render h) by (now rewrite step_render, E).
    unfold requests. rewrite E. cbn. rewrite !app_nil_r, Hr.
    repeat split; trivial. apply step_no_flip; [exact Hq | now rewrite Hr]. }
  destruct e as [w n]. cbn [fst snd] in *.
  destruct n; try congruence.
  8: { apply Hidle. cbn [callback]. unfold handleFocus. now rewrite Hlf. }
  9: { apply Hidle. cbn [callback]. now rewrite (interval_callback_idle _ _ _ Hl). }
  all: match goal with
       | |- context [step _ (_, ?n)] =>
           destruct (callback_appends n (listeners h) w h eq_refl
                       ltac:(discriminate)) as (q & Eq & Hq')
       end;
    rewrite Hq in Eq; cbn [app] in Eq;
    destruct (commit_appends q (render h) Hq') as (Hlog & _ & Hfoc & _);
    assert (Hren : render (step h (w, _)) = commit (render h) q)
      by (rewrite step_render; cbn [fst snd]; now rewrite Eq);
    unfold requests; cbn [fst snd]; rewrite Eq, Hren, Hfoc, Hlog;
    (split; [exact Hf |]);
    (split; [apply step_no_flip; [exact Hq | now rewrite Hren, Hfoc] |]);
    (split; [reflexivity |]);
    clear - Hq'; generalize (render h) as s;
    induction q as [| u q IH]; intros s;
      [cbn; now rewrite app_nil_r |];
    cbn in Hq'; apply andb_true_iff in Hq'; destruct Hq' as [Hu Hq'];
    unfold commit in *; cbn [fold_left flat_map]; rewrite (IH Hq');
    destruct u; try discriminate Hu; cbn; now rewrite <- ?app_assoc.
Qed.

(** While the window keeps the focus nothing is ever cleared or pruned:
    the pending log holds every record emitted since mount, in order, and
    grows with each accepted event. *)
Theorem log_accumulates_without_blur
    (w0 : Browser) (es : list (Browser * Notification)) :
  Forall (fun e => snd e <> blur) es ->
  logs (render (run (mount w0) es)) = session_emitted (mount w0) es.
Proof.
  intros Hes.
  enough (Hinv : forall h,
             queue h = [] -> isFocused (render h) = true ->
             isFocused (listeners h) = true -> logs (listeners h) = [] ->
             logs (render (run h es)) = logs (render h) ++ session_emitted h es).
  { now apply (Hinv (mount w0)). }
  induction Hes as [| e es He _ IH]; intros h Hq Hf Hlf Hl.
  - cbn. now rewrite app_nil_r.
  - cbn [run fold_left session_emitted]. fold (run (step h e) es).
    destruct (step_focused h e Hq Hf Hlf Hl He) as (Hf' & Hls & Hlog & _).
    rewrite IH; [| apply step_queue | exact Hf' | now rewrite Hls | now rewrite Hls].
    now rewrite Hlog, <- app_assoc.
Qed.

Lemma log_accumulates_without_blur_witness :
  let es := [(browser_at ua_linux 1000, keydown "a");
             (browser_at ua_linux 4000, timeout 1);
             (browser_at ua_linux 5000, interval);
             (browser_at ua_linux 6000, mousemove 3 4);
             (browser_at ua_linux 9000, timeout 2);
             (browser_at ua_linux 10000, interval)] in
  logs (render (run (mount (browser_at ua_linux 0)) es))
  = [key_press_record (browser_at ua_linux 1000) "character";
     logged (browser_at ua_linux 4000) "inactivity" [("duration"%string, JNumber 3000)];
     mouse_move_record (browser_at ua_linux 6000) 3 4;
     logged (browser_at ua_linux 9000) "inactivity" [("duration"%string, JNumber 3000)]].
Proof.
  intros es.
  rewrite (log_accumulates_without_blur (browser_at ua_linux 0) es).
  - reflexivity.
  - repeat constructor; discriminate.
Defined.

(** ** Device classification, continued *)

Lemma toLowerCase_app (a b : string) :
  toLowerCase (a ++ b) = (toLowerCase a ++ toLowerCase b)%string.
Proof.
  induction a as [| c a IH]; cbn; [reflexivity | now rewrite IH].
Qed.

(** The classification ignores the case of the letters and what
    surrounds a token: a user agent that contains "ipad" in any mix of
    upper and lower case is a tablet, and one that contains any of the
    five tokens in any case is never a desktop. *)
Theorem detectDeviceType_any_case_any_context
    (w : Browser) (pre s suf : string) :
  navigator_userAgent w = (pre ++ s ++ suf)%string ->
  (toLowerCase s = "ipad"%string -> detectDeviceType w = "tablet"%string)
  /\ (In (toLowerCase s) mobile_tokens -> detectDeviceType w <> "desktop"%string).
Proof.
  intros Hua.
  assert (Hocc : occurs_in (toLowerCase s) (toLowerCase (navigator_userAgent w))).
  { exists (toLowerCase pre), (toLowerCase suf).
    now rewrite Hua, !toLowerCase_app. }
  unfold detectDeviceType. split.
  - intros Hs. rewrite Hs in Hocc.
    assert (Hm : regex_test mobile_tokens (toLowerCase (navigator_userAgent w)) = true).
    { apply regex_test_iff. exists "ipad"%string. split; [cbn; tauto | exact Hocc]. }
    assert (Ht : regex_test tablet_tokens (toLowerCase (navigator_userAgent w)) = true).
    { apply regex_test_iff. exists "ipad"%string. split; [cbn; tauto | exact Hocc]. }
    now rewrite Hm, Ht.
  - intros Hin.
    assert (Hm : regex_test mobile_tokens (toLowerCase (navigator_userAgent w)) = true).
    { apply regex_test_iff. now exists (toLowerCase s). }
    rewrite Hm. destruct (regex_test tablet_tokens _); discriminate.
Qed.

Lemma detectDeviceType_any_case_any_context_witness :
  detectDeviceType (with_userAgent (browser_at ua_linux 0) "Mozilla/5.0 (IPAD; CPU OS 16_6)")
  = "tablet"%string
  /\ detectDeviceType (with_userAgent (browser_at ua_linux 0) "Opera/9.80 (ANDROID 4.1.2; Linux)")
     <> "desktop"%string.
Proof.
  split.
  - apply (proj1 (detectDeviceType_any_case_any_context
                    (with_userAgent (browser_at ua_linux 0) "Mozilla/5.0 (IPAD; CPU OS 16_6)")
                    "Mozilla/5.0 (" "IPAD" "; CPU OS 16_6)" eq_refl)).
    reflexivity.
  - apply (proj2 (detectDeviceType_any_case_any_context
                    (with_userAgent (browser_at ua_linux 0) "Opera/9.80 (ANDROID 4.1.2; Linux)")
                    "Opera/9.80 (" "ANDROID" " 4.1.2; Linux)" eq_refl)).
    cbn. tauto.
Defined.

(** ** Witnesses of the session lemmas *)

Lemma nothing_published_without_blur_witness :
  let es := [(browser_at ua_linux 1000, keydown "a");
             (browser_at ua_linux 1500, mousemove 3 4);
             (browser_at ua_linux 4500, timeout 2);
             (browser_at ua_linux 5000, interval);
             (with_selection (browser_at ua_linux 6000) (Some "text"%string), copy);
             (browser_at ua_linux 10000, interval)] in
  (List.length (logs (render (run (mount (browser_at ua_linux 0)) es))) = 4)%nat
  /\ throttledLogs (render (run (mount (browser_at ua_linux 0)) es)) = [].
Proof.
  intros es. split; [reflexivity |].
  apply (nothing_published_without_blur (browser_at ua_linux 0) es).
  repeat constructor; discriminate.
Defined.

Lemma at_most_one_pending_witness :
  let h := run (mount (browser_at ua_linux 0))
               [(browser_at ua_linux 1000, keydown "a");
                (browser_at ua_linux 1200, mousemove 3 4);
                (browser_at ua_linux 1300, keydown "b")] in
  timeouts h = [(3%nat, session_start + 4300)]
  /\ (List.length (timeouts h) <= 1)%nat.
Proof.
  intros h. split; [reflexivity |].
  apply (at_most_one_pending h). apply reachable_run, reachable_mount.
Defined.

Lemma inactivity_after_key_press_witness :
  let h := mount (browser_at ua_linux 0) in
  let h1 := step h (browser_at ua_linux 1000, keydown "a") in
  timeouts h1 = [(1%nat, session_start + 4000)]
  /\ emitted (requests h1 (browser_at ua_linux 4000, timeout 1))
     = [logged (browser_at ua_linux 4000) "inactivity" [("duration"%string, JNumber 3000)]]
  /\ timeouts (step h1 (browser_at ua_linux 4000, timeout 1)) = [].
Proof.
  intros h.
  apply (inactivity_after_key_press h (browser_at ua_linux 1000)
           (browser_at ua_linux 4000) "a" (reachable_mount (browser_at ua_linux 0))).
  vm_compute. discriminate.
Defined.

(** ** The analysis in a session as the browser delivers it *)

Lemma count_type_app (t : string) (l1 l2 : list EventData) :
  count_type t (l1 ++ l2) = (count_type t l1 + count_type t l2)%nat.
Proof. unfold count_type. now rewrite filter_app, length_app. Qed.

(** No callback but that of the interval emits a "mouse_analysis"
    record. *)
Lemma handlers_emit_no_analysis (h : Hook) (w : Browser) (n : Notification) :
  queue h = [] -> n <> interval ->
  count_type "mouse_analysis" (emitted (requests h (w, n))) = 0%nat.
Proof.
  intros Hq Hn. unfold requests. cbn [fst snd].
  destruct n; try congruence; cbn [callback];
    rewrite ?handleMouseMove_eq, ?handleKeyDown_eq;
    unfold_callback;
    repeat match goal with
           | |- context [if ?b then _ else _] => destruct b
           | |- context [match ?o with Some _ => _ | None => _ end] => destruct o
           | |- context [let '(_, _) := ?p in _] => destruct p
           end;
    cbn [queue]; rewrite Hq; reflexivity.
Qed.

(** A turn of the interval that comes 5000 ms or more after the
    registration finds at most one captured sample in its window, and
    emits no "mouse_analysis" record. *)
Lemma interval_emits_no_analysis (h : Hook) (w : Browser) (registered_at now : Z) :
  captured_before h registered_at now ->
  registered_at + 5000 <= Date_now w ->
  count_type "mouse_analysis" (emitted (requests h (w, interval))) = 0%nat.
Proof.
  intros (Hq & _ & _ & _ & _ & Hs & Hb) Hlate.
  unfold requests. cbn [fst snd callback].
  destruct (logs (listeners h)) as [| r l] eqn:El.
  - now rewrite (interval_callback_idle _ _ _ El), Hq.
  - rewrite interval_callback_eq by (rewrite El; discriminate).
    cbn [queue]. rewrite Hq. cbn [app].
    unfold flush_requests, analysis_requests.
    replace (Z.of_nat (List.length
                         (filter (fun pos => Pos.timestamp pos >=? Date_now w - 5000)
                                 (mousePositions (listeners h)))) >=? 2)
      with false; [reflexivity |].
    symmetry. rewrite Z.geb_leb. apply Z.leb_gt.
    destruct (spaced_length
                (filter (fun pos => Pos.timestamp pos >=? Date_now w - 5000)
                        (mousePositions (listeners h)))
                (Date_now w - 5000) (Date_now w - 5000)) as [-> | Hlen].
    + now apply spaced_filter.
    + apply Forall_forall. intros p Hp. apply filter_In in Hp.
      destruct Hp as [Hin Hp]. rewrite Z.geb_leb in Hp. apply Z.leb_le in Hp.
      rewrite Forall_forall in Hb. specialize (Hb p Hin). lia.
    + cbn. lia.
    + unfold MOUSE_THROTTLE in Hlen. lia.
Qed.

Lemma step_captured_before
    (h : Hook) (e : Browser * Notification) (registered_at now : Z) :
  captured_before h registered_at now ->
  now <= Date_now (fst e) ->
  captured_before (step h e)
                  (if flips h e then Date_now (fst e) else registered_at)
                  (Date_now (fst e)).
Proof.
  intros (Hq & Hreg & Hs & Hlast & Hnow & Hcs & Hcb) Hclock.
  destruct (step_spaced h e Hq (conj Hs Hlast)) as [Hs' Hlast'].
  assert (Hnow' : Forall (fun p => Pos.timestamp p <= Date_now (fst e))
                         (mousePositions (render (step h e)))).
  { destruct (step_positions h e Hq)
      as [[-> _] | [(x & y & _ & -> & _) | (ws & -> & _)]].
    - apply (Forall_impl _ (P := fun p => Pos.timestamp p <= now)); [| exact Hnow].
      intros p Hp. lia.
    - apply Forall_app. split.
      + apply (Forall_impl _ (P := fun p => Pos.timestamp p <= now)); [| exact Hnow].
        intros p Hp. lia.
      + constructor; [cbn; lia | constructor].
    - apply Forall_forall. intros p Hp. apply filter_In in Hp.
      rewrite Forall_forall in Hnow. specialize (Hnow p (proj1 Hp)). lia. }
  unfold captured_before, flips.
  destruct (Bool.eqb (isFocused (render (step h e))) (isFocused (render h))) eqn:E;
    cbn [negb].
  - apply eqb_prop in E. rewrite (step_no_flip h e Hq E).
    repeat split; trivial; try apply step_queue. lia.
  - apply Bool.eqb_false_iff in E. destruct (step_flip h e E) as [-> _].
    repeat split; trivial; try apply step_queue. lia.
Qed.

(** In a session whose clock never goes back and whose turns of the
    interval come 5000 ms or more after the callbacks were last registered,
    no "mouse_analysis" record is ever emitted: what the callbacks captured
    at the registration is too old for the window of any of their turns. *)
Theorem no_analysis_in_ordinary_sessions
    (w0 : Browser) (es : list (Browser * Notification)) :
  ordinary (mount w0) (Date_now w0) (Date_now w0) es ->
  count_type "mouse_analysis" (session_emitted (mount w0) es) = 0%nat.
Proof.
  enough (Hinv : forall h registered_at now,
             captured_before h registered_at now ->
             ordinary h registered_at now es ->
             count_type "mouse_analysis" (session_emitted h es) = 0%nat).
  { apply Hinv. unfold captured_before. cbn.
    repeat split; try constructor; lia. }
  induction es as [| e es IH]; intros h registered_at now Hc Ho; [reflexivity |].
  cbn [ordinary] in Ho. destruct Ho as (Hclock & Hlate & Ho).
  cbn [session_emitted]. rewrite count_type_app.
  rewrite (IH _ _ _ (step_captured_before h e registered_at now Hc Hclock) Ho).
  rewrite Nat.add_0_r.
  destruct e as [w n]. cbn [fst snd] in *.
  destruct (is_focus_or_blur n) eqn:Hn.
  - apply handlers_emit_no_analysis; [apply Hc | now destruct n].
  - destruct n; try discriminate Hn;
      try (apply handlers_emit_no_analysis; [apply Hc | discriminate]).
    apply (interval_emits_no_analysis h w registered_at now Hc).
    now apply Hlate.
Qed.

Lemma no_analysis_in_ordinary_sessions_witness :
  let es := [(browser_at ua_linux 1000, mousemove 0 0);
             (browser_at ua_linux 1600, mousemove 100 0);
             (browser_at ua_linux 2000, blur);
             (browser_at ua_linux 6800, mousemove 300 200);
             (browser_at ua_linux 7000, interval);
             (browser_at ua_linux 7400, mousemove 0 0);
             (browser_at ua_linux 10400, timeout 4);
             (browser_at ua_linux 12000, interval)] in
  (List.length (session_emitted (mount (browser_at ua_linux 0)) es) = 8)%nat
  /\ count_type "mouse_analysis" (session_emitted (mount (browser_at ua_linux 0)) es) = 0%nat.
Proof.
  intros es. split; [vm_compute; reflexivity |].
  apply (no_analysis_in_ordinary_sessions (browser_at ua_linux 0) es).
  vm_compute. repeat split; intros; discriminate.
Defined.
